(** * Portfolio service: a shallow embedding of [fastapi_challenge/main.py]

    The service is a handful of HTTP handlers registered on a FastAPI
    application.  The handlers are pure functions of the bound request
    parameters; the only state is the store of the rate limiter.  The
    embedding keeps that shape:

    - Python [str] values are [string]s.  A header value reaches the handler
      decoded as Latin-1, so each character of [user_agent] is one code point
      below 256 and [str.lower] acts character by character.  A query
      parameter is kept in its UTF-8 encoding; the only operations applied to
      it are the test for emptiness and the split at the comma, which act the
      same on the encoding as on the decoded text.  The text of a query
      parameter holds no surrogate, since the decoding of the query replaces
      what is not UTF-8.  A text of a JSON body can hold a lone surrogate,
      written [\udXXX] in the body; it is kept as the three bytes 237, 160 to
      191, 128 to 191 of generalized UTF-8, which no other text contains.
      Such a text cannot be encoded in a response: see [render].
    - [Optional[...]] is [option]; Python truthiness of such a value is
      [truthy].
    - a handler either returns or raises: [result].
    - the body of a request is what the framework makes of it before the
      routed function is called: a [Portfolio], a list of validation errors,
      or nothing it could read: [Body].
    - the dictionaries handed to the JSON encoder are [json] objects, with
      the keys in the order of the source.
    - the limiter's counters are a [gmap] passed through [serve]. *)

From Stdlib Require Import ZArith Ascii String.
From stdpp Require Import base option list strings gmap sorting.

Local Open Scope Z_scope.

(** ** Python strings *)

Module PyStr.

(** [str.lower] on one Latin-1 character: the capital letters A-Z and the
  accented capitals U+00C0..U+00DE (the multiplication sign U+00D7 apart)
  move 32 code points up, the others stay. *)
Definition lower_char (c : ascii) : ascii :=
let n := N_of_ascii c in
if ((65 <=? n) && (n <=? 90))%N
   || ((192 <=? n) && (n <=? 222) && negb (n =? 215))%N
then ascii_of_N (n + 32)
else c.

(** [s.lower()] *)
Fixpoint lower (s : string) : string :=
match s with
| EmptyString => EmptyString
| String c s' => String (lower_char c) (lower s')
end.

(** [s.startswith(p)] *)
Fixpoint startswith (p s : string) : bool :=
match p, s with
| EmptyString, _ => true
| String _ _, EmptyString => false
| String a p', String b s' => Ascii.eqb a b && startswith p' s'
end.

(** [needle in hay] *)
Fixpoint contains (needle hay : string) : bool :=
startswith needle hay
|| match hay with
   | EmptyString => false
   | String _ hay' => contains needle hay'
   end.

(** [s.split(sep)] for a one-character separator: the pieces between the
  occurrences of [sep], in order, empty pieces included; never the empty
  list. *)
Fixpoint split (sep : ascii) (s : string) : list string :=
match s with
| EmptyString => [EmptyString]
| String c s' =>
    if Ascii.eqb c sep then EmptyString :: split sep s'
    else match split sep s' with
         | piece :: pieces => String c piece :: pieces
         | [] => [String c EmptyString]
         end
end.

(** [sep.join(pieces)] *)
Fixpoint join (sep : ascii) (pieces : list string) : string :=
match pieces with
| [] => EmptyString
| [piece] => piece
| piece :: pieces' => piece +:+ String sep (join sep pieces')
end.

(** [c in s] for a character *)
Fixpoint has_char (c : ascii) (s : string) : bool :=
match s with
| EmptyString => false
| String a s' => Ascii.eqb a c || has_char c s'
end.

(** Truthiness of an [Optional[str]]: [None] and the empty string are
  false. *)
Definition truthy (o : option string) : bool :=
match o with
| None => false
| Some EmptyString => false
| Some (String _ _) => true
end.

(** [o or default] *)
Definition or_default (o : option string) (default : string) : string :=
match o with
| Some s => if truthy o then s else default
| None => default
end.

End PyStr.

(** ** Values handed to the JSON encoder *)

#[warnings="-register-all"]
Inductive json : Type :=
| JNull
| JString (s : string)
| JArray (items : list json)
| JObject (fields : list (string * json)).

(** [d[key]] on a dictionary, [None] where Python raises [KeyError]. *)
Fixpoint assoc (key : string) (fields : list (string * json)) : option json :=
  match fields with
  | [] => None
  | (k, v) :: fields' => if String.eqb k key then Some v else assoc key fields'
  end.

Definition json_get (key : string) (j : json) : option json :=
  match j with
  | JObject fields => assoc key fields
  | _ => None
  end.

(** How the encoder writes an [Optional[str]] and an [Optional[List[str]]]. *)
Definition json_of_str (o : option string) : json :=
  match o with
  | None => JNull
  | Some s => JString s
  end.

Definition json_of_strs (o : option (list string)) : json :=
  match o with
  | None => JNull
  | Some l => JArray (map JString l)
  end.

(** A lone surrogate in a text: the byte 237 followed by a byte from 160 to
    191. *)
Fixpoint has_surrogate (s : string) : bool :=
  match s with
  | EmptyString => false
  | String a s' =>
      match s' with
      | EmptyString => false
      | String b _ =>
          ((N_of_ascii a =? 237) && (160 <=? N_of_ascii b) && (N_of_ascii b <=? 191))%N
          || has_surrogate s'
      end
  end.

(** [json.dumps(content, ensure_ascii=False).encode("utf-8")] succeeds: no
    key and no text of the value holds a lone surrogate. *)
Fixpoint json_encodable (j : json) : bool :=
  match j with
  | JNull => true
  | JString s => negb (has_surrogate s)
  | JArray items => forallb json_encodable items
  | JObject fields =>
      forallb (fun field => match field with
                            | (key, value) =>
                                negb (has_surrogate key) && json_encodable value
                            end) fields
  end.

(** ** Responses and their headers *)

(** The headers of a response: the ones the program sets.  Those the
    framework derives from the body (content-length, content-type) are left
    out.  The body is empty or one JSON value. *)
Record Response : Type := mkResponse {
  status_code : Z;
  headers : list (string * string);
  content : option json
}.

(** [headers[key] = value]: the key is stored in lower case; the first entry
    of that key is overwritten and later ones are dropped, a new key goes to
    the end. *)
Fixpoint drop_key (k : string) (hs : list (string * string)) : list (string * string) :=
  match hs with
  | [] => []
  | (k', v') :: hs' =>
      if String.eqb k' k then drop_key k hs' else (k', v') :: drop_key k hs'
  end.

Fixpoint set_key (k v : string) (hs : list (string * string)) : list (string * string) :=
  match hs with
  | [] => [(k, v)]
  | (k', v') :: hs' =>
      if String.eqb k' k then (k, v) :: drop_key k hs' else (k', v') :: set_key k v hs'
  end.

Definition set_header (key value : string) (r : Response) : Response :=
  mkResponse (status_code r) (set_key (PyStr.lower key) value (headers r)) (content r).

(** [headers.get(key)]: the first entry whose key is the lower-cased [key]. *)
Fixpoint find_key (k : string) (hs : list (string * string)) : option string :=
  match hs with
  | [] => None
  | (k', v') :: hs' => if String.eqb k' k then Some v' else find_key k hs'
  end.

Definition get_header (key : string) (r : Response) : option string :=
  find_key (PyStr.lower key) (headers r).

(** [JSONResponse(content, status_code=...)] *)
Definition JSONResponse (status : Z) (j : json) : Response :=
  mkResponse status [] (Some j).

(** [RedirectResponse(url=..., status_code=...)]: an empty body and the
    target in the [location] header. *)
Definition RedirectResponse (url : string) (status : Z) : Response :=
  set_header "location" url (mkResponse status [] None).

(** ** Exceptions *)

(** [RequestValidationError] is raised by the framework for a body that does
    not validate, with the list of errors; [UnicodeEncodeError] by the
    encoding of a response, for the content it could not encode. *)
#[warnings="-register-all"]
Inductive exn : Type :=
| HTTPException (status : Z) (detail : string)
| RateLimitExceeded
| Exception (msg : string)
| RequestValidationError (errors : list json)
| UnicodeEncodeError (content : json).

Inductive result (A : Type) : Type :=
| Return (a : A)
| Raise (e : exn).
Arguments Return {A} a.
Arguments Raise {A} e.

(** ** The request parameters *)

(** The query parameters of [GET /portfolio] as the framework binds them:
    each one a string or missing. *)
Module Query.
Record t : Type := mk {
  name : option string;
  school : option string;
  major : option string;
  minor : option string;
  hobbies : option string;
  linkedin : option string;
  github : option string
}.

(** The request without any query parameter. *)
Definition none : t := mk None None None None None None None.
End Query.

(** [class Portfolio(BaseModel)] *)
Module Portfolio.
Record t : Type := mk {
  name : option string;
  school : option string;
  major : option string;
  minor : option string;
  hobbies : option (list string);
  linkedin : option string;
  github : option string
}.
End Portfolio.

(** ** The handlers *)

(** [@app.get("/")] *)
Definition redirect_to_main_page : Response :=
  RedirectResponse "/portfolio" 307.

(** [@app.get("/portfolio")], the function under the limiter's decorator. *)
Definition submit_details_get (q : Query.t) (user_agent : option string)
  : result Response :=
  if PyStr.truthy user_agent
     && PyStr.contains "bot" (PyStr.lower (default EmptyString user_agent))
  then Raise (HTTPException 403 "Bots are not allowed")
  else
    let hobbies_list :=
      if PyStr.truthy (Query.hobbies q)
      then PyStr.split "," (default EmptyString (Query.hobbies q))
      else [] in
    let response :=
      JSONResponse 200
        (JObject
           [("message", JString "GET request received successfully!");
            ("data",
             JObject
               [("name", JString (PyStr.or_default (Query.name q) "Anonymous"));
                ("school", JString (PyStr.or_default (Query.school q) "Not Specified"));
                ("major", JString (PyStr.or_default (Query.major q) "Not Specified"));
                ("minor", JString (PyStr.or_default (Query.minor q) "Not Specified"));
                ("hobbies", JArray (map JString hobbies_list));
                ("linkedin", JString (PyStr.or_default (Query.linkedin q) "Not Provided"));
                ("github", JString (PyStr.or_default (Query.github q) "Not Provided"))])]) in
    Return (set_header "X-Robots-Tag" "noindex, nofollow" response).

(** [@app.post("/portfolio")], the function under the limiter's decorator.
    It returns a dictionary, which the framework sends as a 200 JSON
    response. *)
Definition submit_details (details : Portfolio.t) : result json :=
  if negb (PyStr.truthy (Portfolio.name details))
     || negb (PyStr.truthy (Portfolio.school details))
     || negb (PyStr.truthy (Portfolio.major details))
  then Raise (HTTPException 400 "Name, school, and major are required fields.")
  else
    Return
      (JObject
         [("message", JString "Details received successfully!");
          ("data",
           JObject
             [("name", json_of_str (Portfolio.name details));
              ("school", json_of_str (Portfolio.school details));
              ("major", json_of_str (Portfolio.major details));
              ("minor", json_of_str (Portfolio.minor details));
              ("hobbies", json_of_strs (Portfolio.hobbies details));
              ("linkedin", json_of_str (Portfolio.linkedin details));
              ("github", json_of_str (Portfolio.github details))])]).

(** [@app.get("/v1/portfolio")] *)
Definition submit_details_v1 : json :=
  JObject [("message", JString "API Version 1")].

(** [@app.get("/v2/portfolio")] *)
Definition submit_details_v2 : json :=
  JObject [("message", JString "API Version 2 with improved features!")].

(** [@app.exception_handler(RateLimitExceeded)] *)
Definition rate_limit_exceeded_handler : Response :=
  JSONResponse 429
    (JObject [("message", JString "Rate limit exceeded. Please try again later.")]).

(** [@app.exception_handler(Exception)] *)
Definition global_exception_handler : Response :=
  JSONResponse 500
    (JObject
       [("message", JString "An internal server error occurred. Please try again later.")]).

(** The framework's own handler of [HTTPException]: the status of the
    exception and its detail under the key [detail]. *)
Definition http_exception_handler (status : Z) (detail : string) : Response :=
  JSONResponse status (JObject [("detail", JString detail)]).

(** A response with a JSON body is built by encoding the content, which
    raises when a text holds a lone surrogate. *)
Definition render (status : Z) (j : json) : result Response :=
  if json_encodable j then Return (JSONResponse status j)
  else Raise (UnicodeEncodeError j).

(** The framework's own handler of [RequestValidationError]: status 422 and
    the errors under the key [detail]. *)
Definition request_validation_exception_handler (errors : list json)
  : result Response :=
  render 422 (JObject [("detail", JArray errors)]).

(** The response sent for a raised exception: the most specific registered
    handler; what a handler itself raises goes to the handler of
    [Exception]. *)
Definition handle_exception (e : exn) : Response :=
  match e with
  | HTTPException status detail => http_exception_handler status detail
  | RateLimitExceeded => rate_limit_exceeded_handler
  | RequestValidationError errors =>
      match request_validation_exception_handler errors with
      | Return response => response
      | Raise _ => global_exception_handler
      end
  | Exception _ | UnicodeEncodeError _ => global_exception_handler
  end.

(** ** The rate limiter *)

Module Limiter.

(** A limit such as ["5/minute"]: at most [amount] requests per window of
    [per] seconds. *)
Record rate : Type := mkRate { amount : nat; per : Z }.

Definition per_minute (n : nat) : rate := mkRate n 60.

(** The counters: for a key (the decorated function and the client
    address) the time at which its window ends and the number of requests
    counted in it.  Time is in seconds. *)
Abbreviation store := (gmap (string * string) (Z * nat)).

(** Modelled from the spec: the storage of the slowapi limiter is not part of
    the sources.  The window of [key] that is still open at [now], if any:
    a window is over once its end time is reached. *)
Definition live (now : Z) (st : store) (key : string * string) : option (Z * nat) :=
  match st !! key with
  | Some (expiry, n) => if now <? expiry then Some (expiry, n) else None
  | None => None
  end.

(** Modelled from the spec: the limiter [Limiter(key_func=get_remote_address)]
    is the slowapi library's and is not part of the sources.  The spec asks
    for per-client counters updated by increment-and-check over a sliding or
    fixed one-minute window; this is the fixed window.  A request counts in
    the open window of its key, or opens a new window of [per] seconds
    starting now; it is admitted when the count, itself included, is at most
    [amount].  A refused request is counted as well. *)
Definition hit (lim : rate) (key : string * string) (now : Z) (st : store)
  : bool * store :=
  let '(expiry, n) :=
    match live now st key with
    | Some w => w
    | None => (now + per lim, 0%nat)
    end in
  ((S n <=? amount lim)%nat, <[key := (expiry, S n)]> st).

End Limiter.

(** ** The application *)

(** The five routes the decorators register. *)
Inductive Endpoint : Type :=
| GetRoot          (* GET / *)
| GetPortfolio     (* GET /portfolio *)
| PostPortfolio    (* POST /portfolio *)
| GetV1Portfolio   (* GET /v1/portfolio *)
| GetV2Portfolio.  (* GET /v2/portfolio *)

(** What the framework makes of the body of a request for the parameter
    [details: Portfolio], before it calls the routed function: the validated
    record; the errors of a body that is missing, is not JSON or does not
    validate; or a body it could not read at all, such as bytes that are not
    UTF-8.  Only [POST /portfolio] has such a parameter; the other routes do
    not look at the body. *)
#[warnings="-register-all"]
Inductive Body : Type :=
| Valid (details : Portfolio.t)
| Invalid (errors : list json)
| Unreadable.

(** A request to one of the routes: the address of the client, the bound
    query parameters, the [User-Agent] header and the body. *)
Record Request : Type := mkRequest {
  endpoint : Endpoint;
  client : string;
  query : Query.t;
  user_agent : option string;
  body : Body
}.

(** Modelled from the spec: the key function of the limiter is the slowapi
    library's; the spec keys the counters by client address. *)
Definition get_remote_address (request : Request) : string := client request.

(** [@limiter.limit(...)]: the check runs before the decorated function and
    raises [RateLimitExceeded] in its place. *)
Definition limit {A : Type} (lim : Limiter.rate) (scope : string)
    (handler : Request -> result A)
    (now : Z) (st : Limiter.store) (request : Request)
  : result A * Limiter.store :=
  let '(admitted, st') :=
    Limiter.hit lim (scope, get_remote_address request) now st in
  (if admitted then handler request else Raise RateLimitExceeded, st').

(** What the client receives: the returned response, or the one of the
    exception handler. *)
Definition respond (r : result Response) : Response :=
  match r with
  | Return response => response
  | Raise e => handle_exception e
  end.

(** A returned dictionary is sent as a 200 JSON response, if it can be
    encoded. *)
Definition send_json (r : result json) : result Response :=
  match r with
  | Return j => render 200 j
  | Raise e => Raise e
  end.

(** The framework reads and validates the body before it calls the routed
    function, the limiter's decorator included: what it cannot read is a 400
    error of its own, what does not validate a [RequestValidationError]. *)
Definition bind_body (b : Body) : result Portfolio.t :=
  match b with
  | Valid details => Return details
  | Invalid errors => Raise (RequestValidationError errors)
  | Unreadable => Raise (HTTPException 400 "There was an error parsing the body")
  end.

(** One request served at time [now]. *)
Definition serve (now : Z) (st : Limiter.store) (request : Request)
  : Response * Limiter.store :=
  match endpoint request with
  | GetRoot => (redirect_to_main_page, st)
  | GetPortfolio =>
      let '(r, st') :=
        limit (Limiter.per_minute 5) "submit_details_get"
          (fun rq => submit_details_get (query rq) (user_agent rq))
          now st request in
      (respond r, st')
  | PostPortfolio =>
      match bind_body (body request) with
      | Return details =>
          let '(r, st') :=
            limit (Limiter.per_minute 10) "submit_details"
              (fun _ => submit_details details)
              now st request in
          (respond (send_json r), st')
      | Raise e => (respond (Raise e), st)
      end
  | GetV1Portfolio => (JSONResponse 200 submit_details_v1, st)
  | GetV2Portfolio => (JSONResponse 200 submit_details_v2, st)
  end.

(** Requests served one after the other, each at its arrival time. *)
Fixpoint run (st : Limiter.store) (reqs : list (Z * Request))
  : list Response * Limiter.store :=
  match reqs with
  | [] => ([], st)
  | (now, request) :: reqs' =>
      let '(response, st') := serve now st request in
      let '(responses, st'') := run st' reqs' in
      (response :: responses, st'')
  end.

(** ** Notions used to state the properties *)

(** The text contains "bot" in any mix of capitals and small letters:
    three consecutive characters, a b, an o and a t. *)
Definition contains_bot_ignoring_case (s : string) : Prop :=
  exists (pre : string) (c1 c2 c3 : ascii) (suf : string),
    s = pre +:+ String c1 (String c2 (String c3 suf))
    /\ (c1 = "b"%char \/ c1 = "B"%char)
    /\ (c2 = "o"%char \/ c2 = "O"%char)
    /\ (c3 = "t"%char \/ c3 = "T"%char).

(** A field that is missing or the empty string. *)
Definition absent_or_empty (o : option string) : Prop :=
  o = None \/ o = Some EmptyString.

(** [response.json()["data"][key]] *)
Definition data_field (key : string) (response : Response) : option json :=
  match content response with
  | Some j =>
      match json_get "data" j with
      | Some d => json_get key d
      | None => None
      end
  | None => None
  end.

(** [response.json()["message"]] *)
Definition message_field (response : Response) : option json :=
  match content response with
  | Some j => json_get "message" j
  | None => None
  end.

(** A parameter given as the empty string, read as a missing one. *)
Definition blank_as_missing (o : option string) : option string :=
  match o with
  | Some EmptyString => None
  | _ => o
  end.

Definition blanks_as_missing (q : Query.t) : Query.t :=
  Query.mk (blank_as_missing (Query.name q))
           (blank_as_missing (Query.school q))
           (blank_as_missing (Query.major q))
           (blank_as_missing (Query.minor q))
           (blank_as_missing (Query.hobbies q))
           (blank_as_missing (Query.linkedin q))
           (blank_as_missing (Query.github q)).

(** The reading of the hobbies parameter under which every present value,
    the empty one included, is split at the commas. *)
Definition hobbies_split_whenever_present : Prop :=
  forall (q : Query.t) (ua : option string) (s : string) (response : Response),
    Query.hobbies q = Some s ->
    submit_details_get q ua = Return response ->
    data_field "hobbies" response = Some (JArray (map JString (PyStr.split "," s))).

#[global] Instance Endpoint_eq_dec : EqDecision Endpoint.
Proof. solve_decision. Defined.

(** An arrival that is a [GET /portfolio] of the client at [address]. *)
Definition portfolio_get_from (address : string) (arrival : Z * Request) : Prop :=
  endpoint arrival.2 = GetPortfolio /\ client arrival.2 = address.

#[global] Instance portfolio_get_from_dec (address : string) (arrival : Z * Request)
  : Decision (portfolio_get_from address arrival).
Proof. unfold portfolio_get_from. apply _. Defined.

(** The arrivals of the client's [GET /portfolio] requests all lie in the
    minute that starts at [t0]. *)
Definition within_minute (address : string) (t0 : Z) (reqs : list (Z * Request)) : Prop :=
  Forall (fun arrival => portfolio_get_from address arrival ->
                         t0 <= arrival.1 < t0 + 60) reqs.

(** How many of the arrivals are [GET /portfolio] requests of the client. *)
Definition portfolio_gets_from (address : string) (reqs : list (Z * Request)) : nat :=
  length (filter (portfolio_get_from address) reqs).

(** The counter of the client's [GET /portfolio] requests. *)
Definition get_key (address : string) : string * string :=
  ("submit_details_get", address).

(** The query whose only parameter is an empty [hobbies]. *)
Definition empty_hobbies_query : Query.t :=
  Query.mk None None None None (Some EmptyString) None None.

(** A [GET /portfolio] without parameters from the client at [address]. *)
Definition plain_get (address : string) : Request :=
  mkRequest GetPortfolio address Query.none None (Invalid []).

(** Six such requests of one client within a minute, a request of another
    client and a [POST] of the same client in between. *)
Definition six_in_a_minute : list (Z * Request) :=
  [(0, plain_get "10.0.0.1");
   (5, plain_get "10.0.0.1");
   (6, plain_get "10.0.0.2");
   (20, plain_get "10.0.0.1");
   (30, mkRequest PostPortfolio "10.0.0.1" Query.none None
          (Valid (Portfolio.mk None None None None None None None)));
   (31, plain_get "10.0.0.1");
   (45, plain_get "10.0.0.1");
   (59, plain_get "10.0.0.1")].

(** ** The middleware around the routes *)

(** The method and the path under which each route is registered. *)
Definition method_of (e : Endpoint) : string :=
  match e with
  | PostPortfolio => "POST"
  | _ => "GET"
  end.

Definition path_of (e : Endpoint) : string :=
  match e with
  | GetRoot => "/"
  | GetPortfolio | PostPortfolio => "/portfolio"
  | GetV1Portfolio => "/v1/portfolio"
  | GetV2Portfolio => "/v2/portfolio"
  end.

(** The routed function under its decorators, before any exception handler:
    what it returns or raises, and the limiter's store after it. *)
Definition route (now : Z) (st : Limiter.store) (request : Request)
  : result Response * Limiter.store :=
  match endpoint request with
  | GetRoot => (Return redirect_to_main_page, st)
  | GetPortfolio =>
      limit (Limiter.per_minute 5) "submit_details_get"
        (fun rq => submit_details_get (query rq) (user_agent rq))
        now st request
  | PostPortfolio =>
      match bind_body (body request) with
      | Return details =>
          let '(r, st') :=
            limit (Limiter.per_minute 10) "submit_details"
              (fun _ => submit_details details)
              now st request in
          (send_json r, st')
      | Raise e => (Raise e, st)
      end
  | GetV1Portfolio => (Return (JSONResponse 200 submit_details_v1), st)
  | GetV2Portfolio => (Return (JSONResponse 200 submit_details_v2), st)
  end.

(** What comes out of the layer holding the handlers of [HTTPException],
    [RequestValidationError] and [RateLimitExceeded]: a response, or an
    exception that layer has no handler for, or that a handler of it
    raised. *)
Inductive passed : Type :=
| Sent (response : Response)
| Uncaught (e : exn).

Definition exception_middleware (r : result Response) : passed :=
  match r with
  | Return response => Sent response
  | Raise (HTTPException status detail) => Sent (http_exception_handler status detail)
  | Raise RateLimitExceeded => Sent rate_limit_exceeded_handler
  | Raise (RequestValidationError errors) =>
      match request_validation_exception_handler errors with
      | Return response => Sent response
      | Raise e => Uncaught e
      end
  | Raise e => Uncaught e
  end.

(** A printed line: a text, or a text followed by [str(e)] of an exception,
    which is kept as the exception. *)
Inductive printed : Type :=
| Plain (text : string)
| WithException (text : string) (e : exn).

(** [@app.middleware("http") log_requests]: the printed lines and what is
    passed on.  The first line is printed before [call_next] runs; an
    exception coming out of [call_next] is printed and raised again. *)
Definition log_requests (request : Request) (call_next : passed)
  : list printed * passed :=
  let line :=
    Plain ("HTTP " +:+ method_of (endpoint request) +:+ " Request to "
           +:+ path_of (endpoint request) +:+ " (sanitized)") in
  match call_next with
  | Sent response => ([line], Sent response)
  | Uncaught e =>
      ([line; WithException "Error during request processing: " e], Uncaught e)
  end.

(** [global_exception_handler] with its print: it is the outermost layer and
    takes what is still uncaught. *)
Definition server_error_middleware (p : passed) : list printed * Response :=
  match p with
  | Sent response => ([], response)
  | Uncaught e =>
      ([WithException "Unhandled exception: " e], global_exception_handler)
  end.

(** The application: the routes inside the exception handlers, inside
    [log_requests], inside the handler of [Exception].  It gives the printed
    lines, the response and the limiter's store. *)
Definition app (now : Z) (st : Limiter.store) (request : Request)
  : list printed * Response * Limiter.store :=
  let '(r, st') := route now st request in
  let '(lines, p) := log_requests request (exception_middleware r) in
  let '(lines', response) := server_error_middleware p in
  (lines ++ lines', response, st').

(** ** Further notions used to state the properties *)

(** How often [c] occurs in [s]. *)
Fixpoint count_char (c : ascii) (s : string) : nat :=
  match s with
  | EmptyString => 0
  | String a s' => (if Ascii.eqb a c then 1 else 0) + count_char c s'
  end.

(** An arrival that is a request of the client at [address] to the route
    [e]. *)
Definition request_to (e : Endpoint) (address : string) (arrival : Z * Request) : Prop :=
  endpoint arrival.2 = e /\ client arrival.2 = address.

#[global] Instance request_to_dec (e : Endpoint) (address : string)
    (arrival : Z * Request) : Decision (request_to e address arrival).
Proof. unfold request_to. apply _. Defined.

(** The limits the decorators put on the routes: the name of the decorated
    function and the number of requests per minute. *)
Definition limit_of (e : Endpoint) : option (string * nat) :=
  match e with
  | GetPortfolio => Some ("submit_details_get", 5%nat)
  | PostPortfolio => Some ("submit_details", 10%nat)
  | _ => None
  end.

(** The responses, among those to [reqs], that answer the requests of the
    client at [address] to the route [e]. *)
Fixpoint answers_to (e : Endpoint) (address : string)
    (reqs : list (Z * Request)) (responses : list Response) : list Response :=
  match reqs, responses with
  | arrival :: reqs', response :: responses' =>
      if decide (request_to e address arrival)
      then response :: answers_to e address reqs' responses'
      else answers_to e address reqs' responses'
  | _, _ => []
  end.

(** Two stores hold the same counter for the client on the route. *)
Definition same_counter (e : Endpoint) (address : string)
    (st1 st2 : Limiter.store) : Prop :=
  match limit_of e with
  | Some (scope, _) => st1 !! (scope, address) = st2 !! (scope, address)
  | None => True
  end.

(** The store has counted [n] requests for [key], in a window that stays
    open through the minute that starts at [t0]. *)
Definition counted_for (key : string * string) (st : Limiter.store)
    (t0 : Z) (n : nat) : Prop :=
  match st !! key with
  | None => n = 0%nat
  | Some (expiry, m) => m = n /\ t0 + 60 <= expiry
  end.

(** A [POST /portfolio] with the three required fields from the client at
    [address]. *)
Definition valid_post (address : string) : Request :=
  mkRequest PostPortfolio address Query.none None
    (Valid (Portfolio.mk (Some "Ada") (Some "NYU") (Some "CS") None None None None)).

(** ** The windows of the limiter, read off the arrivals *)

(** The body passed validation. *)
Definition body_valid (b : Body) : Prop :=
  match b with
  | Valid _ => True
  | _ => False
  end.

#[global] Instance body_valid_dec (b : Body) : Decision (body_valid b).
Proof. destruct b; cbn; apply _. Defined.

(** The request comes to a limiter: it is to one of the two routes under a
    limit, and for [POST /portfolio] its body passed validation. *)
Definition reaches_limiter (request : Request) : Prop :=
  match endpoint request with
  | GetPortfolio => True
  | PostPortfolio => body_valid (body request)
  | _ => False
  end.

#[global] Instance reaches_limiter_dec (request : Request)
  : Decision (reaches_limiter request).
Proof. unfold reaches_limiter. destruct (endpoint request); apply _. Defined.

(** An arrival that is a [POST /portfolio] of the client at [address] with a
    body that passed validation. *)
Definition valid_post_from (address : string) (arrival : Z * Request) : Prop :=
  request_to PostPortfolio address arrival /\ body_valid (body arrival.2).

#[global] Instance valid_post_from_dec (address : string) (arrival : Z * Request)
  : Decision (valid_post_from address arrival).
Proof. unfold valid_post_from. apply _. Defined.

(** The arrivals are in the order of their times. *)
Definition chronological (reqs : list (Z * Request)) : Prop :=
  StronglySorted (fun a b : Z * Request => a.1 <= b.1) reqs.

(** The start of the window of a request that arrives at [t], given the
    arrival times of the counted requests before it, the latest first.  The
    first request starts a window.  A later one falls in the window of the
    request before it when it arrives less than 60 seconds after the start of
    that window, and starts a new window otherwise. *)
Fixpoint start_rev (latest_first : list Z) (t : Z) : Z :=
  match latest_first with
  | [] => t
  | t' :: older =>
      let s := start_rev older t' in
      if t <? s + 60 then s else t
  end.

(** The same, with the earlier arrival times in their order. *)
Definition window_start (earlier : list Z) (t : Z) : Z :=
  start_rev (rev earlier) t.

(** The arrival times of the requests among [reqs] that [counts] holds
    of. *)
Definition arrival_times (counts : Z * Request -> Prop)
    `{!forall x, Decision (counts x)} (reqs : list (Z * Request)) : list Z :=
  (filter counts reqs).*1.

(** How many counted requests, [arrival] included, have arrived since the
    start of the window of [arrival]. *)
Definition in_window (counts : Z * Request -> Prop)
    `{!forall x, Decision (counts x)}
    (earlier : list (Z * Request)) (arrival : Z * Request) : nat :=
  length (filter (fun x => counts x
                           /\ window_start (arrival_times counts earlier) arrival.1
                              <= x.1)
                 (earlier ++ [arrival])).

(** The store follows the arrivals [earlier]: it has no counter for [key]
    when no counted request has arrived, and otherwise holds the window of
    the latest counted request, with its end and the number of counted
    requests arrived since its start. *)
Definition tracked (counts : Z * Request -> Prop)
    `{!forall x, Decision (counts x)} (key : string * string)
    (earlier : list (Z * Request)) (st : Limiter.store) : Prop :=
  match rev (arrival_times counts earlier) with
  | [] => st !! key = None
  | t :: older =>
      st !! key
      = Some (start_rev older t + 60,
              length (filter (fun x => counts x /\ start_rev older t <= x.1) earlier))
  end.

(** [six_in_a_minute], and three more requests of the same client after the
    minute. *)
Definition two_windows : list (Z * Request) :=
  six_in_a_minute
  ++ [(60, plain_get "10.0.0.1"); (61, plain_get "10.0.0.1");
      (119, plain_get "10.0.0.1")].

(** A [POST /portfolio] of the client at [address] whose body does not
    validate. *)
Definition invalid_post (address : string) : Request :=
  mkRequest PostPortfolio address Query.none None
    (Invalid [JObject [("msg", JString "Input should be a valid string")]]).

(** Three posts that do not validate, then eleven that do, five seconds
    apart, then one more after the minute, all of one client. *)
Definition posts_in_two_windows : list (Z * Request) :=
  [(0, invalid_post "10.0.0.1"); (1, invalid_post "10.0.0.1");
   (2, invalid_post "10.0.0.1")]
  ++ map (fun t => (t, valid_post "10.0.0.1"))
       [5; 10; 15; 20; 25; 30; 35; 40; 45; 50; 55]
  ++ [(65, valid_post "10.0.0.1")].

(** ** The texts of a body *)




(** * Properties *)

(** ** Strings *)

Module PyStrFacts.
Import PyStr.

Lemma eqb_ascii_true (a b : ascii) : Ascii.eqb a b = true <-> a = b.
Proof. apply Ascii.eqb_eq. Qed.

Lemma eqb_ascii_false (a b : ascii) : Ascii.eqb a b = false <-> a <> b.
Proof. apply Ascii.eqb_neq. Qed.

(** The characters that [lower_char] sends to a given small letter are the
    letter and its capital.  All 256 characters are tried. *)
Ltac all_chars c :=
  destruct c as [[] [] [] [] [] [] [] []]; vm_compute;
  split; intros H;
  solve [ discriminate H
        | left; reflexivity
        | right; reflexivity
        | destruct H as [H | H]; discriminate H
        | reflexivity ].

Lemma lower_char_b (c : ascii) :
  lower_char c = "b"%char <-> c = "b"%char \/ c = "B"%char.
Proof. all_chars c. Qed.

Lemma lower_char_o (c : ascii) :
  lower_char c = "o"%char <-> c = "o"%char \/ c = "O"%char.
Proof. all_chars c. Qed.

Lemma lower_char_t (c : ascii) :
  lower_char c = "t"%char <-> c = "t"%char \/ c = "T"%char.
Proof. all_chars c. Qed.

Lemma lower_length (s : string) : String.length (lower s) = String.length s.
Proof. induction s as [|c s IH]; simpl; congruence. Qed.

Lemma startswith_spec (p s : string) :
  startswith p s = true <-> exists suf, s = p +:+ suf.
Proof.
  revert s. induction p as [|a p IH]; intros s; simpl.
  - split; [intros _; exists s; reflexivity | reflexivity].
  - destruct s as [|b s].
    + split; [discriminate | intros [suf H]; discriminate H].
    + rewrite andb_true_iff, eqb_ascii_true, IH. split.
      * intros [-> [suf ->]]. exists suf. reflexivity.
      * intros [suf H]. injection H as -> ->. split; [reflexivity | eauto].
Qed.

Lemma contains_spec (needle hay : string) :
  contains needle hay = true <-> exists pre suf, hay = pre +:+ needle +:+ suf.
Proof.
  induction hay as [|c hay IH].
  - simpl. rewrite orb_false_r, startswith_spec. split.
    + intros [suf H]. exists EmptyString, suf. exact H.
    + intros [pre [suf H]]. destruct pre as [|a pre]; [|discriminate H].
      exists suf. exact H.
  - cbn [contains]. rewrite orb_true_iff, startswith_spec, IH. split.
    + intros [[suf H] | [pre [suf H]]].
      * exists EmptyString, suf. exact H.
      * exists (String c pre), suf. simpl. rewrite H. reflexivity.
    + intros [pre [suf H]]. destruct pre as [|a pre].
      * left. exists suf. exact H.
      * right. simpl in H. injection H as _ H. exists pre, suf. exact H.
Qed.

(** *** [split] and [join] *)

Lemma split_nonempty (sep : ascii) (s : string) : split sep s <> [].
Proof.
  destruct s as [|c s]; simpl; [discriminate|].
  destruct (Ascii.eqb c sep); [discriminate|].
  destruct (split sep s); discriminate.
Qed.

Lemma join_cons (sep : ascii) (c : ascii) (p : string) (ps : list string) :
  join sep (String c p :: ps) = String c (join sep (p :: ps)).
Proof. destruct ps; reflexivity. Qed.

(** Joining the pieces with the separator gives the string back. *)
Lemma join_split (sep : ascii) (s : string) : join sep (split sep s) = s.
Proof.
  induction s as [|c s IH]; [reflexivity|].
  cbn [split]. destruct (Ascii.eqb c sep) eqn:E.
  - apply eqb_ascii_true in E. subst c.
    pose proof (split_nonempty sep s) as Hne.
    destruct (split sep s) as [|p ps]; [contradiction|].
    change (join sep (EmptyString :: p :: ps))
      with (EmptyString +:+ String sep (join sep (p :: ps))).
    rewrite IH. reflexivity.
  - pose proof (split_nonempty sep s) as Hne.
    destruct (split sep s) as [|p ps]; [contradiction|].
    rewrite join_cons, IH. reflexivity.
Qed.

(** No piece holds the separator. *)
Lemma split_no_sep (sep : ascii) (s : string) :
  Forall (fun piece => has_char sep piece = false) (split sep s).
Proof.
  induction s as [|c s IH]; simpl.
  - constructor; [reflexivity | constructor].
  - destruct (Ascii.eqb c sep) eqn:E.
    + constructor; [reflexivity | exact IH].
    + destruct (split sep s) as [|p ps].
      * constructor; [simpl; rewrite E; reflexivity | constructor].
      * inversion IH as [|? ? Hp Hps]; subst.
        constructor; [simpl; rewrite E; exact Hp | exact Hps].
Qed.

Lemma split_piece_then_sep (sep : ascii) (p rest : string) :
  has_char sep p = false ->
  split sep (p +:+ String sep rest) = p :: split sep rest.
Proof.
  induction p as [|c p IH]; simpl; intros H.
  - rewrite Ascii.eqb_refl. reflexivity.
  - apply orb_false_iff in H as [Hc Hp].
    rewrite Hc, (IH Hp). reflexivity.
Qed.

Lemma split_single_piece (sep : ascii) (p : string) :
  has_char sep p = false -> split sep p = [p].
Proof.
  induction p as [|c p IH]; simpl; intros H; [reflexivity|].
  apply orb_false_iff in H as [Hc Hp].
  rewrite Hc, (IH Hp). reflexivity.
Qed.

(** The pieces are the only such decomposition: [split] is determined by
    [join_split] and [split_no_sep]. *)
Lemma split_join (sep : ascii) (pieces : list string) :
  pieces <> [] ->
  Forall (fun piece => has_char sep piece = false) pieces ->
  split sep (join sep pieces) = pieces.
Proof.
  induction pieces as [|p ps IH]; intros Hne Hall; [contradiction|].
  inversion Hall as [|? ? Hp Hps]; subst.
  destruct ps as [|p' ps].
  - simpl. apply split_single_piece, Hp.
  - change (join sep (p :: p' :: ps))
      with (p +:+ String sep (join sep (p' :: ps))).
    rewrite (split_piece_then_sep _ _ _ Hp), IH; [reflexivity | discriminate | exact Hps].
Qed.

(** *** Truthiness *)

Lemma truthy_spec (o : option string) :
  truthy o = false <-> o = None \/ o = Some EmptyString.
Proof.
  destruct o as [[|c s]|]; simpl; split; intros H; auto;
    try discriminate H; destruct H as [H | H]; discriminate H.
Qed.

Lemma truthy_Some (o : option string) :
  truthy o = true <-> exists s, o = Some s /\ s <> EmptyString.
Proof.
  destruct o as [[|c s]|]; simpl; split; intros H; try discriminate H.
  - destruct H as [s [H Hne]]. injection H as <-. contradiction.
  - exists (String c s). split; [reflexivity | discriminate].
  - reflexivity.
  - destruct H as [s [H _]]. discriminate H.
Qed.

Lemma or_default_falsy (o : option string) (d : string) :
  truthy o = false -> or_default o d = d.
Proof. destruct o as [[|c s]|]; simpl; intros H; [reflexivity | discriminate H | reflexivity]. Qed.

Lemma or_default_truthy (s d : string) :
  s <> EmptyString -> or_default (Some s) d = s.
Proof. destruct s; [contradiction | reflexivity]. Qed.

End PyStrFacts.

(** ** The bot check of [GET /portfolio] *)

Section BotCheck.
Import PyStr PyStrFacts.

Lemma startswith_bot_lower (s : string) :
  startswith "bot" (lower s) = true <->
  exists (c1 c2 c3 : ascii) (suf : string),
    s = String c1 (String c2 (String c3 suf))
    /\ (c1 = "b"%char \/ c1 = "B"%char)
    /\ (c2 = "o"%char \/ c2 = "O"%char)
    /\ (c3 = "t"%char \/ c3 = "T"%char).
Proof.
  destruct s as [|c1 [|c2 [|c3 suf]]]; cbn [lower startswith].
  - split; [discriminate | intros (? & ? & ? & ? & H & _); discriminate H].
  - rewrite andb_false_r.
    split; [discriminate | intros (? & ? & ? & ? & H & _); discriminate H].
  - rewrite !andb_false_r.
    split; [discriminate | intros (? & ? & ? & ? & H & _); discriminate H].
  - rewrite andb_true_r, !andb_true_iff, !eqb_ascii_true.
    split.
    + intros (H1 & H2 & H3). symmetry in H1, H2, H3.
      apply lower_char_b in H1. apply lower_char_o in H2. apply lower_char_t in H3.
      exists c1, c2, c3, suf. auto.
    + intros (d1 & d2 & d3 & suf' & H & H1 & H2 & H3).
      injection H as -> -> -> _.
      apply lower_char_b in H1. apply lower_char_o in H2. apply lower_char_t in H3.
      auto.
Qed.

(** The test of the source, ["bot" in user_agent.lower()], against the
    reading of the words "contains bot, case-insensitively". *)
Lemma bot_in_lower (s : string) :
  contains "bot" (lower s) = true <-> contains_bot_ignoring_case s.
Proof.
  unfold contains_bot_ignoring_case.
  induction s as [|c s IH].
  - split; [discriminate|].
    intros (pre & c1 & c2 & c3 & suf & H & _).
    destruct pre; discriminate H.
  - change (contains "bot" (lower (String c s)))
      with (startswith "bot" (lower (String c s)) || contains "bot" (lower s)).
    rewrite orb_true_iff, startswith_bot_lower, IH. split.
    + intros [(c1 & c2 & c3 & suf & H & Hc) | (pre & c1 & c2 & c3 & suf & H & Hc)].
      * exists EmptyString, c1, c2, c3, suf. split; [exact H | exact Hc].
      * exists (String c pre), c1, c2, c3, suf. split; [|exact Hc].
        simpl. rewrite H. reflexivity.
    + intros (pre & c1 & c2 & c3 & suf & H & Hc). destruct pre as [|a pre].
      * left. exists c1, c2, c3, suf. split; [exact H | exact Hc].
      * right. simpl in H. injection H as _ H.
        exists pre, c1, c2, c3, suf. split; [exact H | exact Hc].
Qed.

Lemma bot_guard (ua : option string) :
  truthy ua && contains "bot" (lower (default EmptyString ua)) = true <->
  exists s, ua = Some s /\ contains_bot_ignoring_case s.
Proof.
  destruct ua as [s|].
  - cbn [default]. destruct s as [|c s].
    + split; [discriminate|].
      intros (s & H & Hs). injection H as <-.
      apply bot_in_lower in Hs. discriminate Hs.
    + cbn [truthy andb]. rewrite bot_in_lower. split.
      * intros H. eauto.
      * intros (s' & H & Hs). injection H as <-. exact Hs.
  - split; [discriminate | intros (s & H & _); discriminate H].
Qed.

(** The handler leaves by the bot check or returns a 200 response. *)
Lemma submit_details_get_cases (q : Query.t) (ua : option string) :
  ((exists s, ua = Some s /\ contains_bot_ignoring_case s)
   /\ submit_details_get q ua = Raise (HTTPException 403 "Bots are not allowed"))
  \/ (~ (exists s, ua = Some s /\ contains_bot_ignoring_case s)
      /\ exists response,
           submit_details_get q ua = Return response
           /\ status_code response = 200).
Proof.
  unfold submit_details_get.
  destruct (truthy ua && contains "bot" (lower (default EmptyString ua))) eqn:E.
  - left. split; [apply bot_guard, E | reflexivity].
  - right. split.
    + intros H. apply bot_guard in H. congruence.
    + eexists. split; reflexivity.
Qed.

End BotCheck.

(** What [GET /portfolio] sends: the limiter's refusal, or what the handler
    returned or raised. *)
Lemma serve_get_portfolio
    (now : Z) (st : Limiter.store) (c : string) (q : Query.t)
    (ua : option string) (b : Body) :
  (serve now st (mkRequest GetPortfolio c q ua b)).1 = rate_limit_exceeded_handler
  \/ (serve now st (mkRequest GetPortfolio c q ua b)).1
     = respond (submit_details_get q ua).
Proof.
  unfold serve, limit, Limiter.hit. cbn [endpoint].
  destruct (Limiter.live now st _) as [[expiry n]|];
    (match goal with |- context [Nat.leb ?a ?b] => destruct (Nat.leb a b) end;
     [right | left]; reflexivity).
Qed.

(** C1.  [GET /portfolio] raises the 403 error "Bots are not allowed" exactly
    when the User-Agent header is present and contains "bot" in any mix of
    capitals and small letters.  When the header is absent or holds no such
    substring the handler raises nothing and returns its 200 response, and
    the request is never answered 403.  A request with such a header is
    answered with that 403 error, unless the limiter, which comes first, has
    refused it. *)
Theorem bot_user_agent_forbidden (q : Query.t) (ua : option string) :
  (submit_details_get q ua = Raise (HTTPException 403 "Bots are not allowed")
   <-> exists s, ua = Some s /\ contains_bot_ignoring_case s)
  /\ (ua = None \/ (exists s, ua = Some s /\ ~ contains_bot_ignoring_case s) ->
      (exists response,
         submit_details_get q ua = Return response /\ status_code response = 200)
      /\ forall now st c b,
           status_code (serve now st (mkRequest GetPortfolio c q ua b)).1 <> 403)
  /\ ((exists s, ua = Some s /\ contains_bot_ignoring_case s) ->
      forall now st c b,
        (serve now st (mkRequest GetPortfolio c q ua b)).1
          = JSONResponse 403 (JObject [("detail", JString "Bots are not allowed")])
        \/ status_code (serve now st (mkRequest GetPortfolio c q ua b)).1 = 429).
Proof.
  destruct (submit_details_get_cases q ua) as [[Hbot Hr] | [Hno (response & Hr & Hs)]].
  - split; [|split].
    + split; [intros _; exact Hbot | intros _; exact Hr].
    + intros [-> | (s & -> & Hs)].
      * destruct Hbot as (s & H & _). discriminate H.
      * destruct Hbot as (s' & H & Hs'). injection H as <-. contradiction.
    + intros _ now st c b.
      destruct (serve_get_portfolio now st c q ua b) as [E | E]; rewrite E.
      * right. reflexivity.
      * left. rewrite Hr. reflexivity.
  - split; [|split].
    + split; [rewrite Hr; discriminate | intros H; contradiction].
    + intros _. split; [exists response; split; assumption|].
      intros now st c b.
      destruct (serve_get_portfolio now st c q ua b) as [E | E]; rewrite E.
      * discriminate.
      * rewrite Hr. cbn [respond]. rewrite Hs. discriminate.
    + intros H. contradiction.
Qed.

(** The header [some-bot/1.0] of the spec's example, and a browser's. *)
Lemma bot_user_agent_forbidden_witness :
  submit_details_get Query.none (Some "some-bot/1.0")
    = Raise (HTTPException 403 "Bots are not allowed")
  /\ exists response,
       submit_details_get Query.none (Some "Mozilla/5.0") = Return response
       /\ status_code response = 200.
Proof.
  split.
  - apply (bot_user_agent_forbidden Query.none (Some "some-bot/1.0")).
    exists "some-bot/1.0". split; [reflexivity|].
    exists "some-", "b"%char, "o"%char, "t"%char, "/1.0".
    repeat split; auto.
  - apply (bot_user_agent_forbidden Query.none (Some "Mozilla/5.0")).
    right. exists "Mozilla/5.0". split; [reflexivity|].
    intros H. apply bot_in_lower in H. discriminate H.
Defined.

(** ** The required fields of [POST /portfolio] *)

Lemma absent_or_empty_falsy (o : option string) :
  absent_or_empty o <-> PyStr.truthy o = false.
Proof. unfold absent_or_empty. symmetry. apply PyStrFacts.truthy_spec. Qed.

Lemma required_fields_guard (d : Portfolio.t) :
  negb (PyStr.truthy (Portfolio.name d))
  || negb (PyStr.truthy (Portfolio.school d))
  || negb (PyStr.truthy (Portfolio.major d)) = true
  <-> absent_or_empty (Portfolio.name d)
      \/ absent_or_empty (Portfolio.school d)
      \/ absent_or_empty (Portfolio.major d).
Proof.
  rewrite !orb_true_iff, !negb_true_iff, !absent_or_empty_falsy. tauto.
Qed.

(** C2.  [POST /portfolio] raises the 400 error "Name, school, and major are
    required fields." exactly when one of name, school and major is absent or
    the empty string; it raises nothing else. *)
Theorem required_fields_bad_request (d : Portfolio.t) :
  (submit_details d
     = Raise (HTTPException 400 "Name, school, and major are required fields.")
   <-> absent_or_empty (Portfolio.name d)
       \/ absent_or_empty (Portfolio.school d)
       \/ absent_or_empty (Portfolio.major d))
  /\ (forall e, submit_details d = Raise e ->
        e = HTTPException 400 "Name, school, and major are required fields.").
Proof.
  rewrite <- required_fields_guard. unfold submit_details.
  destruct (negb (PyStr.truthy (Portfolio.name d))
            || negb (PyStr.truthy (Portfolio.school d))
            || negb (PyStr.truthy (Portfolio.major d))).
  - split; [split; reflexivity | intros e H; injection H as <-; reflexivity].
  - split; [split; discriminate | intros e H; discriminate H].
Qed.

(** ** The body of [POST /portfolio] *)







(** ** The fixed routes *)

(** C7.  Whatever the request carries, [GET /] is answered with status 307
    and the header [Location: /portfolio]; the limiter is not touched. *)
Theorem root_redirects_to_portfolio
    (now : Z) (st : Limiter.store) (c : string) (q : Query.t)
    (ua : option string) (b : Body) :
  status_code (serve now st (mkRequest GetRoot c q ua b)).1 = 307
  /\ get_header "Location" (serve now st (mkRequest GetRoot c q ua b)).1
     = Some "/portfolio"
  /\ (serve now st (mkRequest GetRoot c q ua b)).2 = st.
Proof. repeat split. Qed.

(** C8.  Whatever the request carries, [GET /v1/portfolio] and
    [GET /v2/portfolio] answer 200 with their constant one-field objects. *)
Theorem version_routes_constant
    (now : Z) (st : Limiter.store) (c : string) (q : Query.t)
    (ua : option string) (b : Body) :
  (serve now st (mkRequest GetV1Portfolio c q ua b)).1
    = JSONResponse 200 (JObject [("message", JString "API Version 1")])
  /\ (serve now st (mkRequest GetV2Portfolio c q ua b)).1
     = JSONResponse 200
         (JObject [("message", JString "API Version 2 with improved features!")]).
Proof. split; reflexivity. Qed.

(** ** The success response of [GET /portfolio] *)

Section GetSuccess.
Import PyStr PyStrFacts.

Variables (q : Query.t) (ua : option string) (response : Response).
Hypothesis Hreturn : submit_details_get q ua = Return response.

(** The response the handler returns, field by field. *)
Lemma get_success_fields :
  status_code response = 200
  /\ get_header "X-Robots-Tag" response = Some "noindex, nofollow"
  /\ message_field response = Some (JString "GET request received successfully!")
  /\ data_field "name" response
     = Some (JString (or_default (Query.name q) "Anonymous"))
  /\ data_field "school" response
     = Some (JString (or_default (Query.school q) "Not Specified"))
  /\ data_field "major" response
     = Some (JString (or_default (Query.major q) "Not Specified"))
  /\ data_field "minor" response
     = Some (JString (or_default (Query.minor q) "Not Specified"))
  /\ data_field "hobbies" response
     = Some (JArray (map JString
                       (if truthy (Query.hobbies q)
                        then split "," (default EmptyString (Query.hobbies q))
                        else [])))
  /\ data_field "linkedin" response
     = Some (JString (or_default (Query.linkedin q) "Not Provided"))
  /\ data_field "github" response
     = Some (JString (or_default (Query.github q) "Not Provided")).
Proof.
  unfold submit_details_get in Hreturn.
  destruct (truthy ua && contains "bot" (lower (default EmptyString ua)));
    [discriminate Hreturn|].
  injection Hreturn as <-. repeat split.
Qed.

Lemma get_success_envelope :
  exists message data : json,
    content response = Some (JObject [("message", message); ("data", data)]).
Proof.
  unfold submit_details_get in Hreturn.
  destruct (truthy ua && contains "bot" (lower (default EmptyString ua)));
    [discriminate Hreturn|].
  injection Hreturn as <-. eexists _, _. reflexivity.
Qed.

End GetSuccess.

(** C4.  In the success response of [GET /portfolio] each missing parameter
    is replaced by its placeholder: name by "Anonymous"; school, major and
    minor by "Not Specified"; linkedin and github by "Not Provided".  Without
    any parameter the body is the message with all six placeholders and no
    hobbies. *)
Theorem missing_fields_get_placeholders
    (q : Query.t) (ua : option string) (response : Response) :
  submit_details_get q ua = Return response ->
  (Query.name q = None -> data_field "name" response = Some (JString "Anonymous"))
  /\ (Query.school q = None ->
      data_field "school" response = Some (JString "Not Specified"))
  /\ (Query.major q = None ->
      data_field "major" response = Some (JString "Not Specified"))
  /\ (Query.minor q = None ->
      data_field "minor" response = Some (JString "Not Specified"))
  /\ (Query.linkedin q = None ->
      data_field "linkedin" response = Some (JString "Not Provided"))
  /\ (Query.github q = None ->
      data_field "github" response = Some (JString "Not Provided"))
  /\ (q = Query.none ->
      content response
      = Some (JObject
                [("message", JString "GET request received successfully!");
                 ("data",
                  JObject [("name", JString "Anonymous");
                           ("school", JString "Not Specified");
                           ("major", JString "Not Specified");
                           ("minor", JString "Not Specified");
                           ("hobbies", JArray []);
                           ("linkedin", JString "Not Provided");
                           ("github", JString "Not Provided")])])).
Proof.
  intros H.
  destruct (get_success_fields q ua response H)
    as (_ & _ & _ & Hname & Hschool & Hmajor & Hminor & _ & Hlinkedin & Hgithub).
  repeat split; intros E.
  - rewrite Hname, E. reflexivity.
  - rewrite Hschool, E. reflexivity.
  - rewrite Hmajor, E. reflexivity.
  - rewrite Hminor, E. reflexivity.
  - rewrite Hlinkedin, E. reflexivity.
  - rewrite Hgithub, E. reflexivity.
  - subst q. unfold submit_details_get in H.
    destruct (PyStr.truthy ua
              && PyStr.contains "bot" (PyStr.lower (default EmptyString ua)));
      [discriminate H|].
    injection H as <-. reflexivity.
Qed.

(** A request without parameters and without a User-Agent header. *)
Lemma missing_fields_get_placeholders_witness :
  exists response,
    submit_details_get Query.none None = Return response
    /\ data_field "name" response = Some (JString "Anonymous")
    /\ data_field "school" response = Some (JString "Not Specified")
    /\ data_field "github" response = Some (JString "Not Provided")
    /\ data_field "hobbies" response = Some (JArray []).
Proof.
  eexists. split; [reflexivity|].
  pose proof (missing_fields_get_placeholders Query.none None _ eq_refl)
    as (Hname & Hschool & _ & _ & _ & Hgithub & _).
  split; [apply Hname; reflexivity|].
  split; [apply Hschool; reflexivity|].
  split; [apply Hgithub; reflexivity|].
  reflexivity.
Defined.

(** C9.  A 200 response of [GET /portfolio] carries the header
    [X-Robots-Tag: noindex, nofollow], and its body is the envelope of a
    message and a data object. *)
Theorem get_success_has_robots_tag
    (now : Z) (st : Limiter.store) (c : string) (q : Query.t)
    (ua : option string) (b : Body) :
  status_code (serve now st (mkRequest GetPortfolio c q ua b)).1 = 200 ->
  get_header "X-Robots-Tag" (serve now st (mkRequest GetPortfolio c q ua b)).1
    = Some "noindex, nofollow"
  /\ exists message data : json,
       content (serve now st (mkRequest GetPortfolio c q ua b)).1
       = Some (JObject [("message", message); ("data", data)]).
Proof.
  intros H200.
  destruct (serve_get_portfolio now st c q ua b) as [E | E]; rewrite E in *.
  - discriminate H200.
  - destruct (submit_details_get_cases q ua) as [[_ Hr] | [_ (response & Hr & _)]];
      rewrite Hr in *; [discriminate H200|].
    split.
    + apply (get_success_fields q ua response Hr).
    + apply (get_success_envelope q ua response Hr).
Qed.

(** The first request of a client, with a name and a browser's header. *)
Lemma get_success_has_robots_tag_witness :
  get_header "X-Robots-Tag"
    (serve 0 ∅ (mkRequest GetPortfolio "10.0.0.1"
                  (Query.mk (Some "Ada") None None None None None None)
                  (Some "Mozilla/5.0") Unreadable)).1
  = Some "noindex, nofollow".
Proof.
  apply (get_success_has_robots_tag 0 ∅ "10.0.0.1"
           (Query.mk (Some "Ada") None None None None None None)
           (Some "Mozilla/5.0") Unreadable).
  vm_compute. reflexivity.
Defined.

(** ** Empty parameters of [GET /portfolio] *)

Lemma truthy_blank (o : option string) :
  PyStr.truthy (blank_as_missing o) = PyStr.truthy o.
Proof. destruct o as [[|c s]|]; reflexivity. Qed.

Lemma or_default_blank (o : option string) (placeholder : string) :
  PyStr.or_default (blank_as_missing o) placeholder = PyStr.or_default o placeholder.
Proof. destruct o as [[|c s]|]; reflexivity. Qed.

Lemma hobbies_blank (o : option string) :
  (if PyStr.truthy (blank_as_missing o)
   then PyStr.split "," (default EmptyString (blank_as_missing o))
   else [])
  = (if PyStr.truthy o then PyStr.split "," (default EmptyString o) else []).
Proof. destruct o as [[|c s]|]; reflexivity. Qed.

(** C10.  On [GET /portfolio] a parameter given as the empty string is
    treated as a missing one: the outcome is the same as without it.  When
    the User-Agent is absent or names no bot the handler returns its
    response, and in it an empty name, school, major, minor, linkedin or
    github is replaced by the placeholder and an empty hobbies gives the
    empty sequence, not the sequence of one empty string; the same holds of
    any response the handler returns. *)
Theorem empty_parameter_as_absent (q : Query.t) (ua : option string) :
  submit_details_get (blanks_as_missing q) ua = submit_details_get q ua
  /\ (ua = None \/ (exists s, ua = Some s /\ ~ contains_bot_ignoring_case s) ->
      exists response,
        submit_details_get q ua = Return response
        /\ status_code response = 200
        /\ (Query.name q = Some EmptyString ->
            data_field "name" response = Some (JString "Anonymous"))
        /\ (Query.school q = Some EmptyString ->
            data_field "school" response = Some (JString "Not Specified"))
        /\ (Query.major q = Some EmptyString ->
            data_field "major" response = Some (JString "Not Specified"))
        /\ (Query.minor q = Some EmptyString ->
            data_field "minor" response = Some (JString "Not Specified"))
        /\ (Query.linkedin q = Some EmptyString ->
            data_field "linkedin" response = Some (JString "Not Provided"))
        /\ (Query.github q = Some EmptyString ->
            data_field "github" response = Some (JString "Not Provided"))
        /\ (Query.hobbies q = Some EmptyString ->
            data_field "hobbies" response = Some (JArray [])
            /\ data_field "hobbies" response <> Some (JArray [JString EmptyString])))
  /\ forall response, submit_details_get q ua = Return response ->
       (Query.name q = Some EmptyString ->
        data_field "name" response = Some (JString "Anonymous"))
       /\ (Query.school q = Some EmptyString ->
           data_field "school" response = Some (JString "Not Specified"))
       /\ (Query.major q = Some EmptyString ->
           data_field "major" response = Some (JString "Not Specified"))
       /\ (Query.minor q = Some EmptyString ->
           data_field "minor" response = Some (JString "Not Specified"))
       /\ (Query.linkedin q = Some EmptyString ->
           data_field "linkedin" response = Some (JString "Not Provided"))
       /\ (Query.github q = Some EmptyString ->
           data_field "github" response = Some (JString "Not Provided"))
       /\ (Query.hobbies q = Some EmptyString ->
           data_field "hobbies" response = Some (JArray [])
           /\ data_field "hobbies" response <> Some (JArray [JString EmptyString])).
Proof.
  assert (Hfields : forall response, submit_details_get q ua = Return response ->
       (Query.name q = Some EmptyString ->
        data_field "name" response = Some (JString "Anonymous"))
       /\ (Query.school q = Some EmptyString ->
           data_field "school" response = Some (JString "Not Specified"))
       /\ (Query.major q = Some EmptyString ->
           data_field "major" response = Some (JString "Not Specified"))
       /\ (Query.minor q = Some EmptyString ->
           data_field "minor" response = Some (JString "Not Specified"))
       /\ (Query.linkedin q = Some EmptyString ->
           data_field "linkedin" response = Some (JString "Not Provided"))
       /\ (Query.github q = Some EmptyString ->
           data_field "github" response = Some (JString "Not Provided"))
       /\ (Query.hobbies q = Some EmptyString ->
           data_field "hobbies" response = Some (JArray [])
           /\ data_field "hobbies" response <> Some (JArray [JString EmptyString]))).
  { intros response H.
    destruct (get_success_fields q ua response H)
      as (_ & _ & _ & Hname & Hschool & Hmajor & Hminor & Hhobbies
          & Hlinkedin & Hgithub).
    repeat match goal with |- _ /\ _ => split end; intros E.
    + rewrite Hname, E. reflexivity.
    + rewrite Hschool, E. reflexivity.
    + rewrite Hmajor, E. reflexivity.
    + rewrite Hminor, E. reflexivity.
    + rewrite Hlinkedin, E. reflexivity.
    + rewrite Hgithub, E. reflexivity.
    + rewrite Hhobbies, E. split; [reflexivity | discriminate]. }
  split; [|split; [|exact Hfields]].
  - unfold submit_details_get, blanks_as_missing.
    cbn [Query.name Query.school Query.major Query.minor Query.hobbies
         Query.linkedin Query.github].
    rewrite !or_default_blank, hobbies_blank. reflexivity.
  - intros Hua.
    destruct (submit_details_get_cases q ua) as [[Hbot _] | [_ (response & Hr & Hs)]].
    + exfalso. destruct Hbot as (s & E & Hs).
      destruct Hua as [-> | (s' & -> & Hno)]; [discriminate E|].
      injection E as <-. contradiction.
    + exists response. split; [exact Hr|]. split; [exact Hs|].
      exact (Hfields response Hr).
Qed.

(** The request in which every parameter is given and empty, from a
    browser: it is answered as the request without parameters. *)
Lemma empty_parameter_as_absent_witness :
  submit_details_get
    (Query.mk (Some EmptyString) (Some EmptyString) (Some EmptyString)
       (Some EmptyString) (Some EmptyString) (Some EmptyString) (Some EmptyString))
    (Some "Mozilla/5.0")
  = submit_details_get Query.none (Some "Mozilla/5.0")
  /\ exists response,
       submit_details_get
         (Query.mk (Some EmptyString) (Some EmptyString) (Some EmptyString)
            (Some EmptyString) (Some EmptyString) (Some EmptyString)
            (Some EmptyString))
         (Some "Mozilla/5.0")
       = Return response
       /\ data_field "name" response = Some (JString "Anonymous")
       /\ data_field "github" response = Some (JString "Not Provided")
       /\ data_field "hobbies" response = Some (JArray []).
Proof.
  destruct (empty_parameter_as_absent
              (Query.mk (Some EmptyString) (Some EmptyString) (Some EmptyString)
                 (Some EmptyString) (Some EmptyString) (Some EmptyString)
                 (Some EmptyString))
              (Some "Mozilla/5.0")) as (Hsame & Hreturns & _).
  split; [symmetry; exact Hsame|].
  destruct Hreturns
    as (response & Hr & _ & Hname & _ & _ & _ & _ & Hgithub & Hhobbies).
  - right. exists "Mozilla/5.0". split; [reflexivity|].
    intros H. apply bot_in_lower in H. discriminate H.
  - exists response. split; [exact Hr|].
    split; [apply Hname; reflexivity|].
    split; [apply Hgithub; reflexivity|].
    apply Hhobbies. reflexivity.
Defined.

(** ** The hobbies of [GET /portfolio] *)

(** C3, as first stated, fails at the empty parameter: [?hobbies=] is present,
    splitting the empty string gives one empty piece, and the handler answers
    with no hobbies at all. *)
Lemma hobbies_empty_not_split :
  Query.hobbies empty_hobbies_query = Some EmptyString
  /\ PyStr.split "," EmptyString = [EmptyString]
  /\ (exists response,
        submit_details_get empty_hobbies_query None = Return response
        /\ data_field "hobbies" response = Some (JArray []))
  /\ ~ hobbies_split_whenever_present.
Proof.
  split; [reflexivity|]. split; [reflexivity|]. split.
  - eexists. split; reflexivity.
  - intros H.
    specialize (H empty_hobbies_query None EmptyString _ eq_refl eq_refl).
    discriminate H.
Qed.

(** C3.  In the success response of [GET /portfolio], a hobbies parameter
    that is present and not empty is split at its commas: data.hobbies is the
    sequence of pieces, in order and untrimmed, which joined by commas give
    the parameter back and none of which holds a comma.  A parameter that is
    absent or empty gives the empty sequence. *)
Theorem hobbies_split_at_commas
    (q : Query.t) (ua : option string) (response : Response) :
  submit_details_get q ua = Return response ->
  (forall s, Query.hobbies q = Some s -> s <> EmptyString ->
     data_field "hobbies" response = Some (JArray (map JString (PyStr.split "," s)))
     /\ PyStr.join "," (PyStr.split "," s) = s
     /\ Forall (fun piece => PyStr.has_char "," piece = false) (PyStr.split "," s))
  /\ (absent_or_empty (Query.hobbies q) ->
      data_field "hobbies" response = Some (JArray [])).
Proof.
  intros H.
  destruct (get_success_fields q ua response H)
    as (_ & _ & _ & _ & _ & _ & _ & Hhobbies & _).
  split.
  - intros s E Hs. split; [|split].
    + rewrite Hhobbies, E. destruct s; [contradiction | reflexivity].
    + apply PyStrFacts.join_split.
    + apply PyStrFacts.split_no_sep.
  - intros E. apply absent_or_empty_falsy in E.
    rewrite Hhobbies, E. reflexivity.
Qed.

(** The request [?hobbies=reading,chess] of the spec, and one with blanks
    around the comma, which are kept. *)
Lemma hobbies_split_at_commas_witness :
  (exists response,
     submit_details_get
       (Query.mk None None None None (Some "reading,chess") None None) None
     = Return response
     /\ data_field "hobbies" response
        = Some (JArray [JString "reading"; JString "chess"]))
  /\ (exists response,
        submit_details_get
          (Query.mk None None None None (Some "reading , chess,") None None) None
        = Return response
        /\ data_field "hobbies" response
           = Some (JArray [JString "reading "; JString " chess"; JString EmptyString])).
Proof.
  split.
  - eexists. split; [reflexivity|].
    pose proof (hobbies_split_at_commas
                  (Query.mk None None None None (Some "reading,chess") None None)
                  None _ eq_refl) as [Hsplit _].
    destruct (Hsplit "reading,chess") as [Hdata _];
      [reflexivity | discriminate | exact Hdata].
  - eexists. split; [reflexivity|].
    pose proof (hobbies_split_at_commas
                  (Query.mk None None None None (Some "reading , chess,") None None)
                  None _ eq_refl) as [Hsplit _].
    destruct (Hsplit "reading , chess,") as [Hdata _];
      [reflexivity | discriminate | exact Hdata].
Defined.

(** ** The rate limits *)

(** The handler of [GET /portfolio] never answers 429. *)
Lemma handler_not_429 (q : Query.t) (ua : option string) :
  status_code (respond (submit_details_get q ua)) <> 429.
Proof.
  destruct (submit_details_get_cases q ua) as [[_ Hr] | [_ (response & Hr & Hs)]];
    rewrite Hr; cbn; [discriminate | rewrite Hs; discriminate].
Qed.

Lemma required_fields_guard_raise (d : Portfolio.t) (e : exn) :
  submit_details d = Raise e ->
  e = HTTPException 400 "Name, school, and major are required fields.".
Proof.
  unfold submit_details.
  destruct (negb (PyStr.truthy (Portfolio.name d))
            || negb (PyStr.truthy (Portfolio.school d))
            || negb (PyStr.truthy (Portfolio.major d)));
    intros H; [injection H as <-; reflexivity | discriminate H].
Qed.

(** What becomes of the outcome of the handler of [POST /portfolio]: the 200
    response with the returned dictionary, the 400 of the required fields,
    or the 500 of a dictionary that cannot be encoded. *)
Lemma post_handler_answer (d : Portfolio.t) :
  (exists j, submit_details d = Return j /\ json_encodable j = true
             /\ respond (send_json (submit_details d)) = JSONResponse 200 j)
  \/ (submit_details d
        = Raise (HTTPException 400 "Name, school, and major are required fields.")
      /\ respond (send_json (submit_details d))
         = http_exception_handler 400 "Name, school, and major are required fields.")
  \/ (exists j, submit_details d = Return j /\ json_encodable j = false
                /\ respond (send_json (submit_details d)) = global_exception_handler).
Proof.
  destruct (submit_details d) as [j | e] eqn:E.
  - cbn [send_json]. unfold render.
    destruct (json_encodable j) eqn:Hj; [left | right; right];
      exists j; repeat split; assumption.
  - right. left. rewrite (required_fields_guard_raise d e E). split; reflexivity.
Qed.

Lemma post_handler_status (d : Portfolio.t) :
  status_code (respond (send_json (submit_details d))) = 200
  \/ status_code (respond (send_json (submit_details d))) = 400
  \/ status_code (respond (send_json (submit_details d))) = 500.
Proof.
  destruct (post_handler_answer d)
    as [(j & _ & _ & E) | [(_ & E) | (j & _ & _ & E)]]; rewrite E; auto.
Qed.

Lemma get_handler_status (q : Query.t) (ua : option string) :
  status_code (respond (submit_details_get q ua)) = 200
  \/ status_code (respond (submit_details_get q ua)) = 403.
Proof.
  destruct (submit_details_get_cases q ua) as [[_ Hr] | [_ (response & Hr & Hs)]];
    rewrite Hr; [right; reflexivity | left; exact Hs].
Qed.

Lemma run_cons (st : Limiter.store) (now : Z) (request : Request)
    (reqs : list (Z * Request)) :
  (run st ((now, request) :: reqs)).1
  = (serve now st request).1 :: (run (serve now st request).2 reqs).1.
Proof.
  cbn [run]. destruct (serve now st request) as [response st'].
  cbn [fst snd]. destruct (run st' reqs) as [responses st'']. reflexivity.
Qed.

(** A request that comes to a limiter: the limiter's refusal or the answer of
    the handler, which is never a 429; the store is the limiter's. *)
Lemma serve_limited (request : Request) :
  reaches_limiter request ->
  exists scope amount answer,
    limit_of (endpoint request) = Some (scope, amount)
    /\ status_code answer <> 429
    /\ (endpoint request = GetPortfolio ->
        answer = respond (submit_details_get (query request) (user_agent request)))
    /\ (forall d, endpoint request = PostPortfolio -> body request = Valid d ->
        answer = respond (send_json (submit_details d)))
    /\ forall now st,
         serve now st request
         = (if (Limiter.hit (Limiter.per_minute amount) (scope, client request) now st).1
            then answer else rate_limit_exceeded_handler,
            (Limiter.hit (Limiter.per_minute amount) (scope, client request) now st).2).
Proof.
  destruct request as [e c q ua b]. unfold reaches_limiter.
  cbn [endpoint client query user_agent body].
  destruct e; try contradiction.
  - intros _. exists "submit_details_get", 5%nat, (respond (submit_details_get q ua)).
    split; [reflexivity|]. split; [apply handler_not_429|].
    split; [reflexivity|]. split; [discriminate|].
    intros now st. unfold serve, limit, get_remote_address.
    cbn [endpoint client query user_agent].
    destruct (Limiter.hit _ _ now st) as [[] st']; reflexivity.
  - destruct b as [d | errors |]; try contradiction. intros _.
    exists "submit_details", 10%nat, (respond (send_json (submit_details d))).
    split; [reflexivity|].
    split; [destruct (post_handler_status d) as [E | [E | E]]; rewrite E; discriminate|].
    split; [discriminate|].
    split; [intros d' _ H; injection H as <-; reflexivity|].
    intros now st. unfold serve, limit, get_remote_address.
    cbn [endpoint client body bind_body].
    destruct (Limiter.hit _ _ now st) as [[] st']; reflexivity.
Qed.

(** A request that comes to no limiter: one answer, whatever the time and the
    store, and the store is left as it is. *)
Lemma serve_unlimited (request : Request) :
  ~ reaches_limiter request ->
  exists answer,
    status_code answer <> 429
    /\ forall now st, serve now st request = (answer, st).
Proof.
  destruct request as [e c q ua b]. unfold reaches_limiter.
  cbn [endpoint body].
  destruct e; intros H; try (exfalso; apply H; exact I);
    unfold serve; cbn [endpoint body].
  - eexists. split; [|intros now st; reflexivity]. discriminate.
  - destruct b as [d | errors |]; [exfalso; apply H; exact I | |];
      cbn [bind_body respond handle_exception].
    + eexists. split; [|intros now st; reflexivity].
      unfold request_validation_exception_handler, render.
      destruct (json_encodable _); discriminate.
    + eexists. split; [|intros now st; reflexivity]. discriminate.
  - eexists. split; [|intros now st; reflexivity]. discriminate.
  - eexists. split; [|intros now st; reflexivity]. discriminate.
Qed.

(** *** The counters *)

Section Counters.

Variables (lim : Limiter.rate) (key : string * string).

(** A hit on another key leaves the counter of [key]. *)
Lemma hit_other_key (key' : string * string) (now : Z) (st : Limiter.store) :
  key' <> key ->
  (Limiter.hit lim key' now st).2 !! key = st !! key.
Proof.
  intros Hne. unfold Limiter.hit.
  destruct (Limiter.live now st key') as [[expiry n]|]; cbn [snd];
    apply lookup_insert_ne, Hne.
Qed.

(** A hit on [key] looks at the counter of [key] only. *)
Lemma hit_same_counter (now : Z) (st1 st2 : Limiter.store) :
  st1 !! key = st2 !! key ->
  (Limiter.hit lim key now st1).1 = (Limiter.hit lim key now st2).1
  /\ (Limiter.hit lim key now st1).2 !! key = (Limiter.hit lim key now st2).2 !! key.
Proof.
  intros H. unfold Limiter.hit, Limiter.live. rewrite H.
  destruct (st2 !! key) as [[expiry n]|]; [destruct (now <? expiry)|];
    cbn [fst snd]; rewrite !lookup_insert_eq; split; reflexivity.
Qed.

(** A hit while the window is open counts in it. *)
Lemma hit_open (now expiry : Z) (n : nat) (st : Limiter.store) :
  st !! key = Some (expiry, n) ->
  now < expiry ->
  (Limiter.hit lim key now st).1 = (S n <=? Limiter.amount lim)%nat
  /\ (Limiter.hit lim key now st).2 !! key = Some (expiry, S n).
Proof.
  intros H Hopen. unfold Limiter.hit, Limiter.live. rewrite H.
  replace (now <? expiry) with true by (symmetry; apply Z.ltb_lt; exact Hopen).
  cbn [fst snd]. rewrite lookup_insert_eq. split; reflexivity.
Qed.

(** A hit without an open window starts one, which lasts [per] seconds. *)
Lemma hit_new (now : Z) (st : Limiter.store) :
  st !! key = None
  \/ (exists expiry n, st !! key = Some (expiry, n) /\ expiry <= now) ->
  (Limiter.hit lim key now st).1 = (1 <=? Limiter.amount lim)%nat
  /\ (Limiter.hit lim key now st).2 !! key = Some (now + Limiter.per lim, 1%nat).
Proof.
  unfold Limiter.hit, Limiter.live. intros [H | (expiry & n & H & Hover)]; rewrite H.
  - cbn [fst snd]. rewrite lookup_insert_eq. split; reflexivity.
  - replace (now <? expiry) with false by (symmetry; apply Z.ltb_ge; exact Hover).
    cbn [fst snd]. rewrite lookup_insert_eq. split; reflexivity.
Qed.

End Counters.

Lemma limit_of_scope (e1 e2 : Endpoint) (scope : string) (a1 a2 : nat) :
  limit_of e1 = Some (scope, a1) -> limit_of e2 = Some (scope, a2) -> e1 = e2.
Proof.
  destruct e1, e2; cbn; intros H1 H2; try discriminate; try reflexivity;
    injection H1 as <- <-; discriminate H2.
Qed.

(** Requests to other routes and of other clients leave the counter of the
    client on the route. *)
Lemma serve_keeps_other (e : Endpoint) (scope : string) (amount : nat)
    (address : string) (now : Z) (st : Limiter.store) (request : Request) :
  limit_of e = Some (scope, amount) ->
  ~ request_to e address (now, request) ->
  (serve now st request).2 !! (scope, address) = st !! (scope, address).
Proof.
  unfold request_to. cbn [snd]. intros Hlimit Hother.
  destruct (decide (reaches_limiter request)) as [Hreach | Hnot].
  - destruct (serve_limited request Hreach)
      as (scope' & amount' & answer & L & _ & _ & _ & Hserve).
    rewrite (Hserve now st). cbn [snd]. apply hit_other_key.
    intros K. injection K as -> Hc. apply Hother.
    split; [exact (limit_of_scope _ _ _ _ _ L Hlimit) | exact Hc].
  - destruct (serve_unlimited request Hnot) as (answer & _ & Hserve).
    rewrite (Hserve now st). reflexivity.
Qed.

(** *** The windows *)

(** The start of a window is the arrival time of one of the requests. *)
Lemma start_rev_elem (older : list Z) (t : Z) :
  start_rev older t ∈ t :: older.
Proof.
  revert t. induction older as [|t' older IH]; intros t; cbn [start_rev].
  - apply list_elem_of_here.
  - destruct (t <? start_rev older t' + 60).
    + apply list_elem_of_further, IH.
    + apply list_elem_of_here.
Qed.

(** Every request so far arrived less than 60 seconds after the start of the
    latest window. *)
Lemma start_rev_bound (older : list Z) (t : Z) :
  Forall (fun u => u < start_rev older t + 60) (t :: older).
Proof.
  revert t. induction older as [|t' older IH]; intros t; cbn [start_rev].
  - apply Forall_cons. split; [lia | apply Forall_nil; exact I].
  - specialize (IH t'). destruct (Z.ltb_spec t (start_rev older t' + 60)) as [Hin | Hout].
    + apply Forall_cons. split; [exact Hin | exact IH].
    + apply Forall_cons. split; [lia|].
      eapply Forall_impl; [exact IH|]. cbn. intros u Hu. lia.
Qed.

Section Counting.

Context (counts : Z * Request -> Prop) `{counts_dec : !forall x, Decision (counts x)}.
Variables (key : string * string) (amount : nat).

Hypothesis Hcounts :
  forall now request, counts (now, request) ->
    exists answer,
      status_code answer <> 429
      /\ forall st,
           serve now st request
           = (if (Limiter.hit (Limiter.per_minute amount) key now st).1
              then answer else rate_limit_exceeded_handler,
              (Limiter.hit (Limiter.per_minute amount) key now st).2).

Hypothesis Hother :
  forall now st request, ~ counts (now, request) ->
    (serve now st request).2 !! key = st !! key.

(** A counted request is refused exactly when the limiter does not let it
    through. *)
Lemma serve_verdict (now : Z) (st : Limiter.store) (request : Request) (n : nat) :
  counts (now, request) ->
  (Limiter.hit (Limiter.per_minute amount) key now st).1 = (n <=? amount)%nat ->
  (serve now st request).2 = (Limiter.hit (Limiter.per_minute amount) key now st).2
  /\ (status_code (serve now st request).1 = 429 <-> (amount < n)%nat)
  /\ (status_code (serve now st request).1 = 429 ->
      (serve now st request).1 = rate_limit_exceeded_handler).
Proof.
  intros Hc Hlet. destruct (Hcounts now request Hc) as (answer & Hanswer & Hserve).
  rewrite (Hserve st), Hlet. cbn [fst snd]. split; [reflexivity|].
  destruct (Nat.leb_spec n amount) as [Hle | Hgt].
  - split; [split; [intros H; contradiction | lia] | intros H; contradiction].
  - split; [split; [intros _; exact Hgt | reflexivity] | reflexivity].
Qed.

(** Within one minute: a counted request is counted in the open window. *)
Lemma serve_counted (now t0 : Z) (st : Limiter.store) (request : Request) (n : nat) :
  counts (now, request) ->
  counted_for key st t0 n ->
  t0 <= now < t0 + 60 ->
  counted_for key (serve now st request).2 t0 (S n)
  /\ (status_code (serve now st request).1 = 429 <-> (amount < S n)%nat)
  /\ (status_code (serve now st request).1 = 429 ->
      (serve now st request).1 = rate_limit_exceeded_handler).
Proof.
  unfold counted_for. intros Hc Hcounted Hnow.
  destruct (st !! key) as [[expiry m]|] eqn:E.
  - destruct Hcounted as [-> Hexpiry].
    destruct (hit_open (Limiter.per_minute amount) key now expiry n st E)
      as [Hlet Hkey]; [lia|].
    destruct (serve_verdict now st request (S n) Hc Hlet) as (Hst & Hv).
    rewrite Hst, Hkey. split; [split; [reflexivity | exact Hexpiry] | exact Hv].
  - subst n.
    destruct (hit_new (Limiter.per_minute amount) key now st (or_introl E))
      as [Hlet Hkey].
    destruct (serve_verdict now st request 1 Hc Hlet) as (Hst & Hv).
    rewrite Hst, Hkey. cbn [Limiter.per_minute Limiter.per].
    split; [split; [reflexivity | lia] | exact Hv].
Qed.

Lemma run_counted (t0 : Z) (reqs : list (Z * Request)) :
  forall (st : Limiter.store) (n : nat),
    counted_for key st t0 n ->
    Forall (fun arrival => counts arrival -> t0 <= arrival.1 < t0 + 60) reqs ->
    forall (i : nat) (arrival : Z * Request),
      reqs !! i = Some arrival ->
      counts arrival ->
      exists response,
        (run st reqs).1 !! i = Some response
        /\ (status_code response = 429
            <-> (amount < n + length (filter counts (take (S i) reqs)))%nat)
        /\ (status_code response = 429 -> response = rate_limit_exceeded_handler).
Proof.
  induction reqs as [|[now request] reqs IH];
    intros st n Hcounted Hwithin i arrival Hi Hfrom; [discriminate Hi|].
  apply Forall_cons in Hwithin as [Hnow Hwithin]. cbn [fst] in Hnow.
  rewrite run_cons. destruct i as [|i].
  - injection Hi as <-.
    destruct (serve_counted now t0 st request n Hfrom Hcounted (Hnow Hfrom))
      as (_ & H429 & Hbody).
    exists (serve now st request).1. split; [reflexivity|].
    split; [|exact Hbody].
    cbn [take]. rewrite take_0, filter_cons, decide_True by exact Hfrom.
    rewrite filter_nil. cbn [length]. rewrite H429. lia.
  - cbn [lookup list_lookup] in Hi |- *.
    change (take (S (S i)) ((now, request) :: reqs))
      with ((now, request) :: take (S i) reqs).
    rewrite filter_cons.
    destruct (decide (counts (now, request))) as [Hthis | Hnot].
    + destruct (serve_counted now t0 st request n Hthis Hcounted (Hnow Hthis))
        as (Hcounted' & _ & _).
      destruct (IH _ (S n) Hcounted' Hwithin i arrival Hi Hfrom)
        as (response & Hresp & H429 & Hbody).
      exists response. split; [exact Hresp|]. split; [|exact Hbody].
      rewrite H429. cbn [length]. lia.
    + assert (Hcounted' : counted_for key (serve now st request).2 t0 n).
      { unfold counted_for. rewrite (Hother now st request Hnot). exact Hcounted. }
      destruct (IH _ n Hcounted' Hwithin i arrival Hi Hfrom)
        as (response & Hresp & H429 & Hbody).
      exists response. split; [exact Hresp|]. split; [|exact Hbody].
      rewrite H429. lia.
Qed.

(** Facts on the arrivals. *)
Lemma arrival_times_snoc (pre : list (Z * Request)) (arrival : Z * Request) :
  arrival_times counts (pre ++ [arrival])
  = arrival_times counts pre
    ++ (if decide (counts arrival) then [arrival.1] else []).
Proof.
  unfold arrival_times. rewrite filter_app, fmap_app, filter_cons, filter_nil.
  destruct (decide (counts arrival)); reflexivity.
Qed.

Lemma arrival_times_elem (pre : list (Z * Request)) (x : Z * Request) :
  x ∈ pre -> counts x -> x.1 ∈ arrival_times counts pre.
Proof.
  intros Hx Hc. unfold arrival_times.
  apply list_elem_of_fmap. exists x. split; [reflexivity|].
  apply list_elem_of_filter. split; assumption.
Qed.

Lemma elem_arrival_times (pre : list (Z * Request)) (t : Z) :
  t ∈ arrival_times counts pre -> exists x, x ∈ pre /\ counts x /\ x.1 = t.
Proof.
  unfold arrival_times. intros H.
  apply list_elem_of_fmap in H as (x & -> & Hx).
  apply list_elem_of_filter in Hx as [Hc Hx]. eauto.
Qed.

Lemma count_snoc (Q : Z * Request -> Prop) `{Q_dec : !forall x, Decision (Q x)}
    (pre : list (Z * Request)) (arrival : Z * Request) :
  length (filter Q (pre ++ [arrival]))
  = (length (filter Q pre) + (if decide (Q arrival) then 1 else 0))%nat.
Proof.
  rewrite filter_app, length_app, filter_cons, filter_nil.
  destruct (decide (Q arrival)); reflexivity.
Qed.

Lemma count_none (Q : Z * Request -> Prop) `{Q_dec : !forall x, Decision (Q x)}
    (pre : list (Z * Request)) :
  (forall x, x ∈ pre -> ~ Q x) -> length (filter Q pre) = 0%nat.
Proof.
  induction pre as [|x pre IH]; intros H; [reflexivity|].
  rewrite filter_cons, decide_False by (apply H, list_elem_of_here).
  apply IH. intros y Hy. apply H, list_elem_of_further, Hy.
Qed.

(** A counted request, arriving after those the store follows: the store
    follows it too, and it is refused exactly when more than [amount]
    counted requests have arrived since the start of its window. *)
Lemma serve_tracked (pre : list (Z * Request)) (now : Z) (request : Request)
    (st : Limiter.store) :
  counts (now, request) ->
  tracked counts key pre st ->
  chronological (pre ++ [(now, request)]) ->
  tracked counts key (pre ++ [(now, request)]) (serve now st request).2
  /\ (status_code (serve now st request).1 = 429
      <-> (amount < in_window counts pre (now, request))%nat)
  /\ (status_code (serve now st request).1 = 429 ->
      (serve now st request).1 = rate_limit_exceeded_handler).
Proof.
  intros Hc Htracked Hchron.
  assert (Hearlier : forall x, x ∈ pre -> x.1 <= now).
  { intros x Hx.
    apply (StronglySorted_app_1_elem_of _ pre [(now, request)] x (now, request) Hchron Hx).
    apply list_elem_of_here. }
  assert (Hrev : rev (arrival_times counts (pre ++ [(now, request)]))
                 = now :: rev (arrival_times counts pre)).
  { rewrite arrival_times_snoc, decide_True, rev_app_distr by exact Hc.
    reflexivity. }
  unfold tracked in Htracked |- *. rewrite Hrev.
  unfold in_window, window_start. cbn [fst].
  rewrite !count_snoc.
  destruct (rev (arrival_times counts pre)) as [|t' older] eqn:Erev.
  - cbn [start_rev].
    destruct (hit_new (Limiter.per_minute amount) key now st (or_introl Htracked))
      as [Hlet Hkey].
    destruct (serve_verdict now st request 1 Hc Hlet) as (Hst & Hv).
    assert (Hzero : length (filter (fun x => counts x /\ now <= x.1) pre) = 0%nat).
    { apply count_none. intros x Hx [Hcx _].
      pose proof (arrival_times_elem pre x Hx Hcx) as Ht.
      apply (f_equal (@rev Z)) in Erev. rewrite rev_involutive in Erev.
      rewrite Erev in Ht. inversion Ht. }
    rewrite Hzero, decide_True by (split; [exact Hc | cbn; lia]).
    rewrite Hst, Hkey. cbn [Limiter.per_minute Limiter.per plus].
    split; [reflexivity | exact Hv].
  - cbn [start_rev].
    set (s := start_rev older t') in *.
    assert (Hs : s ∈ arrival_times counts pre).
    { apply list_elem_of_In, in_rev, list_elem_of_In. rewrite Erev.
      apply start_rev_elem. }
    assert (Hbound : forall x, x ∈ pre -> counts x -> x.1 < s + 60).
    { intros x Hx Hcx.
      pose proof (arrival_times_elem pre x Hx Hcx) as Ht.
      apply list_elem_of_In, in_rev, list_elem_of_In in Ht. rewrite Erev in Ht.
      pose proof (start_rev_bound older t') as Hall.
      rewrite Forall_forall in Hall. apply Hall, Ht. }
    destruct (Z.ltb_spec now (s + 60)) as [Hin | Hout].
    + destruct (hit_open (Limiter.per_minute amount) key now _ _ st Htracked Hin)
        as [Hlet Hkey].
      destruct (serve_verdict now st request _ Hc Hlet) as (Hst & Hv).
      assert (Hle : s <= now).
      { apply elem_arrival_times in Hs as (x & Hx & _ & <-). apply Hearlier, Hx. }
      rewrite decide_True by (split; [exact Hc | cbn; exact Hle]).
      rewrite Hst, Hkey, Nat.add_1_r. split; [reflexivity | exact Hv].
    + assert (Hover : st !! key = None
                      \/ exists expiry n, st !! key = Some (expiry, n) /\ expiry <= now).
      { right. eexists _, _. split; [exact Htracked | lia]. }
      destruct (hit_new (Limiter.per_minute amount) key now st Hover)
        as [Hlet Hkey].
      destruct (serve_verdict now st request 1 Hc Hlet) as (Hst & Hv).
      assert (Hzero : length (filter (fun x => counts x /\ now <= x.1) pre) = 0%nat).
      { apply count_none. intros x Hx [Hcx Hx'].
        pose proof (Hbound x Hx Hcx). lia. }
      rewrite Hzero, decide_True by (split; [exact Hc | cbn; lia]).
      rewrite Hst, Hkey. cbn [Limiter.per_minute Limiter.per plus].
      split; [reflexivity | exact Hv].
Qed.

(** Any other request leaves what the store follows. *)
Lemma serve_untracked (pre : list (Z * Request)) (now : Z) (request : Request)
    (st : Limiter.store) :
  ~ counts (now, request) ->
  tracked counts key pre st ->
  tracked counts key (pre ++ [(now, request)]) (serve now st request).2.
Proof.
  intros Hnot Htracked. unfold tracked in *.
  rewrite arrival_times_snoc, decide_False, app_nil_r by exact Hnot.
  rewrite (Hother now st request Hnot).
  destruct (rev (arrival_times counts pre)) as [|t' older]; [exact Htracked|].
  rewrite count_snoc, decide_False, Nat.add_0_r by (intros [H _]; contradiction).
  exact Htracked.
Qed.

(** The run of the requests, from a store that follows the arrivals before
    them. *)
Lemma run_tracked (reqs : list (Z * Request)) :
  forall (pre : list (Z * Request)) (st : Limiter.store),
    tracked counts key pre st ->
    chronological (pre ++ reqs) ->
    forall (i : nat) (arrival : Z * Request),
      reqs !! i = Some arrival ->
      counts arrival ->
      exists response,
        (run st reqs).1 !! i = Some response
        /\ (status_code response = 429
            <-> (amount < in_window counts (pre ++ take i reqs) arrival)%nat)
        /\ (status_code response = 429 -> response = rate_limit_exceeded_handler).
Proof.
  induction reqs as [|[now request] reqs IH];
    intros pre st Htracked Hchron i arrival Hi Hfrom; [discriminate Hi|].
  assert (Hchron' : chronological ((pre ++ [(now, request)]) ++ reqs)).
  { rewrite <- app_assoc. exact Hchron. }
  assert (Hchron1 : chronological (pre ++ [(now, request)])).
  { exact (StronglySorted_app_1_l _ _ _ Hchron'). }
  rewrite run_cons. destruct i as [|i].
  - injection Hi as <-. cbn [take]. rewrite app_nil_r.
    destruct (serve_tracked pre now request st Hfrom Htracked Hchron1)
      as (_ & H429 & Hbody).
    exists (serve now st request).1. split; [reflexivity|].
    split; [exact H429 | exact Hbody].
  - cbn [lookup list_lookup] in Hi |- *.
    assert (Htracked' : tracked counts key (pre ++ [(now, request)])
                          (serve now st request).2).
    { destruct (decide (counts (now, request))) as [Hthis | Hnot].
      - apply (serve_tracked pre now request st Hthis Htracked Hchron1).
      - apply serve_untracked; assumption. }
    destruct (IH _ _ Htracked' Hchron' i arrival Hi Hfrom)
      as (response & Hresp & H429 & Hbody).
    exists response. split; [exact Hresp|]. split; [|exact Hbody].
    cbn [take]. rewrite <- app_assoc in H429. exact H429.
Qed.

End Counting.

(** *** The limit of [GET /portfolio] *)

Lemma get_counts (address : string) (now : Z) (request : Request) :
  portfolio_get_from address (now, request) ->
  exists answer,
    status_code answer <> 429
    /\ forall st,
         serve now st request
         = (if (Limiter.hit (Limiter.per_minute 5) (get_key address) now st).1
            then answer else rate_limit_exceeded_handler,
            (Limiter.hit (Limiter.per_minute 5) (get_key address) now st).2).
Proof.
  unfold portfolio_get_from. cbn [snd]. intros [He Hc].
  assert (Hreach : reaches_limiter request).
  { unfold reaches_limiter. rewrite He. exact I. }
  destruct (serve_limited request Hreach)
    as (scope & amount & answer & L & Hanswer & _ & _ & Hserve).
  rewrite He in L. injection L as <- <-.
  exists answer. split; [exact Hanswer|].
  intros st. rewrite (Hserve now st), Hc. reflexivity.
Qed.

Lemma get_other (address : string) (now : Z) (st : Limiter.store) (request : Request) :
  ~ portfolio_get_from address (now, request) ->
  (serve now st request).2 !! get_key address = st !! get_key address.
Proof.
  intros Hnot.
  apply (serve_keeps_other GetPortfolio "submit_details_get" 5 address now st request
           eq_refl Hnot).
Qed.

Ltac chronological_list :=
  repeat (apply SSorted_cons;
          [| repeat (apply List.Forall_cons; [cbn; lia|]); apply List.Forall_nil]);
  apply SSorted_nil.

(** C6.  Take a client whose [GET /portfolio] counter is not yet in the
    store, and any sequence of requests in the order of their arrival, of
    this and of other clients and to any route.  A [GET /portfolio] of the
    client is answered 429 exactly when more than five of the client's
    [GET /portfolio] requests, this one included, have arrived since the
    start of the one-minute window in which it falls, and the 429 response
    has the body [{"message": "Rate limit exceeded. Please try again
    later."}].  A window starts with the client's first request and with each
    request that arrives 60 seconds or more after the start of the window
    before it.  In particular, when the client's requests all arrive within
    one minute, a request is answered 429 exactly when it is beyond the
    client's fifth: the sixth request in the minute is the first one
    refused. *)
Theorem get_rate_limit_per_minute
    (address : string) (st : Limiter.store) (reqs : list (Z * Request)) :
  st !! get_key address = None ->
  chronological reqs ->
  forall (i : nat) (arrival : Z * Request),
    reqs !! i = Some arrival ->
    portfolio_get_from address arrival ->
    exists response,
      (run st reqs).1 !! i = Some response
      /\ (status_code response = 429
          <-> (5 < in_window (portfolio_get_from address) (take i reqs) arrival)%nat)
      /\ (status_code response = 429 ->
          response
          = JSONResponse 429
              (JObject [("message",
                         JString "Rate limit exceeded. Please try again later.")]))
      /\ (forall t0, within_minute address t0 reqs ->
          status_code response = 429
          <-> (5 < portfolio_gets_from address (take (S i) reqs))%nat).
Proof.
  intros Hfresh Hchron i arrival Hi Hfrom.
  assert (Htracked : tracked (portfolio_get_from address) (get_key address) [] st).
  { exact Hfresh. }
  destruct (run_tracked (portfolio_get_from address) (get_key address) 5
              (get_counts address) (get_other address)
              reqs [] st Htracked Hchron i arrival Hi Hfrom)
    as (response & Hresp & H429 & Hbody).
  exists response. split; [exact Hresp|]. split; [exact H429|]. split; [exact Hbody|].
  intros t0 Hwithin.
  assert (Hcounted : counted_for (get_key address) st t0 0).
  { unfold counted_for. rewrite Hfresh. reflexivity. }
  destruct (run_counted (portfolio_get_from address) (get_key address) 5
              (get_counts address) (get_other address)
              t0 reqs st 0%nat Hcounted Hwithin i arrival Hi Hfrom)
    as (response' & Hresp' & H429' & _).
  rewrite Hresp in Hresp'. injection Hresp' as <-. exact H429'.
Qed.

(** In [two_windows], served from the empty store, the sixth [GET /portfolio]
    of 10.0.0.1 within the first minute (at second 59) is answered 429; its
    next request, at second 60, starts a new window and is not; and in
    [six_in_a_minute], where all arrive within one minute, the fifth is not
    refused. *)
Lemma get_rate_limit_per_minute_witness :
  (exists response,
     (run ∅ two_windows).1 !! 7%nat = Some response
     /\ status_code response = 429)
  /\ (exists response,
        (run ∅ two_windows).1 !! 8%nat = Some response
        /\ status_code response <> 429)
  /\ (exists response,
        (run ∅ six_in_a_minute).1 !! 6%nat = Some response
        /\ status_code response <> 429).
Proof.
  assert (Hfresh : (∅ : Limiter.store) !! get_key "10.0.0.1" = None)
    by apply lookup_empty.
  assert (Hchron : chronological two_windows) by chronological_list.
  assert (Hchron6 : chronological six_in_a_minute) by chronological_list.
  assert (Hwithin : within_minute "10.0.0.1" 0 six_in_a_minute)
    by (repeat (apply List.Forall_cons; [intros _; cbn; lia|]);
        apply List.Forall_nil).
  split; [|split].
  - destruct (get_rate_limit_per_minute "10.0.0.1" ∅ two_windows
                Hfresh Hchron 7%nat (59, plain_get "10.0.0.1") eq_refl)
      as (response & Hresp & H429 & _).
    + split; reflexivity.
    + exists response. split; [exact Hresp|]. apply H429. vm_compute. lia.
  - destruct (get_rate_limit_per_minute "10.0.0.1" ∅ two_windows
                Hfresh Hchron 8%nat (60, plain_get "10.0.0.1") eq_refl)
      as (response & Hresp & H429 & _).
    + split; reflexivity.
    + exists response. split; [exact Hresp|].
      intros H. apply H429 in H. vm_compute in H. lia.
  - destruct (get_rate_limit_per_minute "10.0.0.1" ∅ six_in_a_minute
                Hfresh Hchron6 6%nat (45, plain_get "10.0.0.1") eq_refl)
      as (response & Hresp & _ & _ & Hminute).
    + split; reflexivity.
    + exists response. split; [exact Hresp|].
      intros H. apply (Hminute 0 Hwithin) in H. vm_compute in H. lia.
Defined.


(** * Further properties of the handlers *)

(** ** Parameters that [GET /portfolio] is given *)

Lemma or_default_nonempty (o : option string) (placeholder : string) :
  placeholder <> EmptyString -> PyStr.or_default o placeholder <> EmptyString.
Proof.
  intros Hp. destruct o as [[|c s]|]; simpl; [exact Hp | discriminate | exact Hp].
Qed.

(** X1.  In the success response of [GET /portfolio] a parameter that is
    given and not empty comes back unchanged: no trimming, no change of
    case, no placeholder, even when the text is the placeholder of another
    field. *)
Theorem get_echoes_given_fields
    (q : Query.t) (ua : option string) (response : Response) :
  submit_details_get q ua = Return response ->
  (forall s, Query.name q = Some s -> s <> EmptyString ->
     data_field "name" response = Some (JString s))
  /\ (forall s, Query.school q = Some s -> s <> EmptyString ->
        data_field "school" response = Some (JString s))
  /\ (forall s, Query.major q = Some s -> s <> EmptyString ->
        data_field "major" response = Some (JString s))
  /\ (forall s, Query.minor q = Some s -> s <> EmptyString ->
        data_field "minor" response = Some (JString s))
  /\ (forall s, Query.linkedin q = Some s -> s <> EmptyString ->
        data_field "linkedin" response = Some (JString s))
  /\ (forall s, Query.github q = Some s -> s <> EmptyString ->
        data_field "github" response = Some (JString s)).
Proof.
  intros H.
  destruct (get_success_fields q ua response H)
    as (_ & _ & _ & Hname & Hschool & Hmajor & Hminor & _ & Hlinkedin & Hgithub).
  repeat match goal with |- _ /\ _ => split end; intros s E Hs.
  - rewrite Hname, E, (PyStrFacts.or_default_truthy _ _ Hs). reflexivity.
  - rewrite Hschool, E, (PyStrFacts.or_default_truthy _ _ Hs). reflexivity.
  - rewrite Hmajor, E, (PyStrFacts.or_default_truthy _ _ Hs). reflexivity.
  - rewrite Hminor, E, (PyStrFacts.or_default_truthy _ _ Hs). reflexivity.
  - rewrite Hlinkedin, E, (PyStrFacts.or_default_truthy _ _ Hs). reflexivity.
  - rewrite Hgithub, E, (PyStrFacts.or_default_truthy _ _ Hs). reflexivity.
Qed.

(** A name with blanks around it, and a school and a major. *)
Lemma get_echoes_given_fields_witness :
  exists response,
    submit_details_get
      (Query.mk (Some " Ada ") (Some "NYU") (Some "Not Provided") None None None None)
      (Some "curl/8.0")
    = Return response
    /\ data_field "name" response = Some (JString " Ada ")
    /\ data_field "major" response = Some (JString "Not Provided").
Proof.
  eexists. split; [reflexivity|].
  pose proof (get_echoes_given_fields
                (Query.mk (Some " Ada ") (Some "NYU") (Some "Not Provided")
                   None None None None)
                (Some "curl/8.0") _ eq_refl) as (Hname & _ & Hmajor & _).
  split.
  - apply (Hname " Ada "); [reflexivity | discriminate].
  - apply (Hmajor "Not Provided"); [reflexivity | discriminate].
Defined.

(** X2.  In the success response of [GET /portfolio] each of name, school,
    major, minor, linkedin and github is a string that is not empty, whatever
    the parameters were; none of them is ever null or missing. *)
Theorem get_fields_never_empty
    (q : Query.t) (ua : option string) (response : Response) :
  submit_details_get q ua = Return response ->
  Forall (fun key => exists s, data_field key response = Some (JString s)
                               /\ s <> EmptyString)
         ["name"; "school"; "major"; "minor"; "linkedin"; "github"].
Proof.
  intros H.
  destruct (get_success_fields q ua response H)
    as (_ & _ & _ & Hname & Hschool & Hmajor & Hminor & _ & Hlinkedin & Hgithub).
  repeat (apply List.Forall_cons;
          [eexists; split; [eassumption | apply or_default_nonempty; discriminate]|]).
  apply List.Forall_nil.
Qed.

(** A request in which every parameter is the empty string. *)
Lemma get_fields_never_empty_witness :
  exists response,
    submit_details_get
      (Query.mk (Some EmptyString) (Some EmptyString) (Some EmptyString)
         (Some EmptyString) (Some EmptyString) (Some EmptyString) (Some EmptyString))
      None
    = Return response
    /\ Forall (fun key => exists s, data_field key response = Some (JString s)
                                    /\ s <> EmptyString)
         ["name"; "school"; "major"; "minor"; "linkedin"; "github"].
Proof.
  eexists. split; [reflexivity|].
  apply (get_fields_never_empty
           (Query.mk (Some EmptyString) (Some EmptyString) (Some EmptyString)
              (Some EmptyString) (Some EmptyString) (Some EmptyString)
              (Some EmptyString))
           None).
  reflexivity.
Defined.

(** ** The number of hobbies *)

Lemma split_length (sep : ascii) (s : string) :
  length (PyStr.split sep s) = S (count_char sep s).
Proof.
  induction s as [|c s IH]; [reflexivity|].
  cbn [PyStr.split count_char]. destruct (Ascii.eqb c sep).
  - cbn [length]. rewrite IH. reflexivity.
  - pose proof (PyStrFacts.split_nonempty sep s) as Hne.
    destruct (PyStr.split sep s) as [|p ps]; [contradiction|].
    cbn [length] in *. rewrite IH. reflexivity.
Qed.

(** X3.  For a hobbies parameter that is not empty, [GET /portfolio] returns
    one hobby more than the parameter has commas: empty pieces, as between
    two commas or after a last one, are kept, and a parameter without a comma
    is returned whole as the only hobby. *)
Theorem hobbies_one_more_than_commas
    (q : Query.t) (ua : option string) (response : Response) (s : string) :
  submit_details_get q ua = Return response ->
  Query.hobbies q = Some s ->
  s <> EmptyString ->
  (exists items,
     data_field "hobbies" response = Some (JArray items)
     /\ length items = S (count_char "," s))
  /\ (count_char "," s = 0%nat ->
      data_field "hobbies" response = Some (JArray [JString s])).
Proof.
  intros H E Hs.
  destruct (get_success_fields q ua response H)
    as (_ & _ & _ & _ & _ & _ & _ & Hhobbies & _).
  assert (Hd : data_field "hobbies" response
               = Some (JArray (map JString (PyStr.split "," s)))).
  { rewrite Hhobbies, E. destruct s; [contradiction | reflexivity]. }
  split.
  - eexists. split; [exact Hd|]. rewrite length_map. apply split_length.
  - intros H0. rewrite Hd.
    pose proof (split_length "," s) as Hlen. rewrite H0 in Hlen.
    pose proof (PyStrFacts.join_split "," s) as Hjoin.
    destruct (PyStr.split "," s) as [|p [|p' ps]]; try discriminate Hlen.
    cbn in Hjoin. subst p. reflexivity.
Qed.

(** Three commas give four hobbies, two of them empty. *)
Lemma hobbies_one_more_than_commas_witness :
  exists response items,
    submit_details_get
      (Query.mk None None None None (Some "chess,,go,") None None) None
    = Return response
    /\ data_field "hobbies" response = Some (JArray items)
    /\ length items = 4%nat.
Proof.
  destruct (hobbies_one_more_than_commas
              (Query.mk None None None None (Some "chess,,go,") None None)
              None _ "chess,,go," eq_refl eq_refl) as [(items & Hd & Hlen) _].
  - discriminate.
  - eexists _, items. split; [reflexivity|]. split; [exact Hd | exact Hlen].
Defined.

(** X4.  Hobbies sent as a list joined by commas come back as that list: for
    a list that is not empty, whose entries hold no comma and whose joined
    text is not empty, [GET /portfolio] returns exactly the entries, in
    order. *)
Theorem hobbies_round_trip
    (pieces : list string) (q : Query.t) (ua : option string)
    (response : Response) :
  pieces <> [] ->
  Forall (fun piece => PyStr.has_char "," piece = false) pieces ->
  PyStr.join "," pieces <> EmptyString ->
  Query.hobbies q = Some (PyStr.join "," pieces) ->
  submit_details_get q ua = Return response ->
  data_field "hobbies" response = Some (JArray (map JString pieces)).
Proof.
  intros Hne Hall Hjoin E H.
  destruct (get_success_fields q ua response H)
    as (_ & _ & _ & _ & _ & _ & _ & Hhobbies & _).
  rewrite Hhobbies, E.
  replace (PyStr.truthy (Some (PyStr.join "," pieces))) with true.
  - cbv beta iota delta [default from_option id].
    rewrite (PyStrFacts.split_join _ _ Hne Hall). reflexivity.
  - symmetry. apply PyStrFacts.truthy_Some. eauto.
Qed.

(** A list of three hobbies, one with a blank in it. *)
Lemma hobbies_round_trip_witness :
  exists response,
    submit_details_get
      (Query.mk None None None None (Some "chess,rock climbing,go") None None) None
    = Return response
    /\ data_field "hobbies" response
       = Some (JArray [JString "chess"; JString "rock climbing"; JString "go"]).
Proof.
  eexists. split; [reflexivity|].
  apply (hobbies_round_trip ["chess"; "rock climbing"; "go"]
           (Query.mk None None None None (Some "chess,rock climbing,go") None None)
           None).
  - discriminate.
  - repeat (apply List.Forall_cons; [reflexivity|]). apply List.Forall_nil.
  - discriminate.
  - reflexivity.
  - reflexivity.
Defined.

(** ** What the routes answer *)

(** The answers there are, route by route. *)
Lemma serve_answers (now : Z) (st : Limiter.store) (request : Request) :
  (reaches_limiter request
   /\ (serve now st request).1 = rate_limit_exceeded_handler)
  \/ (endpoint request = GetPortfolio
      /\ (serve now st request).1
         = http_exception_handler 403 "Bots are not allowed")
  \/ (endpoint request = GetPortfolio
      /\ exists response,
           submit_details_get (query request) (user_agent request) = Return response
           /\ (serve now st request).1 = response)
  \/ (endpoint request = PostPortfolio
      /\ (exists d, body request = Valid d)
      /\ (serve now st request).1
         = http_exception_handler 400 "Name, school, and major are required fields.")
  \/ (endpoint request = PostPortfolio
      /\ body request = Unreadable
      /\ (serve now st request).1
         = http_exception_handler 400 "There was an error parsing the body")
  \/ (endpoint request = PostPortfolio
      /\ exists j, (serve now st request).1 = JSONResponse 200 j)
  \/ (endpoint request = PostPortfolio
      /\ exists errors,
           body request = Invalid errors
           /\ (serve now st request).1
              = JSONResponse 422 (JObject [("detail", JArray errors)]))
  \/ (endpoint request = PostPortfolio
      /\ (serve now st request).1 = global_exception_handler)
  \/ (endpoint request = GetRoot /\ (serve now st request).1 = redirect_to_main_page)
  \/ ((endpoint request = GetV1Portfolio \/ endpoint request = GetV2Portfolio)
      /\ exists j, (serve now st request).1 = JSONResponse 200 j).
Proof.
  destruct (decide (reaches_limiter request)) as [Hreach | Hnot].
  - destruct (serve_limited request Hreach)
      as (scope & amount & answer & L & _ & Hget & Hpost & Hserve).
    rewrite (Hserve now st). cbn [fst].
    destruct (Limiter.hit _ _ now st).1; [|left; split; [exact Hreach | reflexivity]].
    unfold reaches_limiter in Hreach.
    destruct (endpoint request) eqn:He; try contradiction.
    + rewrite (Hget eq_refl).
      destruct (submit_details_get_cases (query request) (user_agent request))
        as [[_ Hr] | [_ (response & Hr & _)]]; rewrite Hr.
      * right. left. split; reflexivity.
      * do 2 right. left. split; [reflexivity|]. exists response. split; reflexivity.
    + destruct (body request) as [d | errors |] eqn:Hb; try contradiction.
      rewrite (Hpost d eq_refl eq_refl).
      destruct (post_handler_answer d)
        as [(j & _ & _ & E) | [(_ & E) | (j & _ & _ & E)]]; rewrite E.
      * do 5 right. left. split; [reflexivity|]. exists j. reflexivity.
      * do 3 right. left. split; [reflexivity|]. split; [eauto | reflexivity].
      * do 7 right. left. split; reflexivity.
  - unfold reaches_limiter in Hnot. unfold serve.
    destruct (endpoint request) eqn:He; cbn [fst].
    + do 8 right. left. split; reflexivity.
    + exfalso. apply Hnot. exact I.
    + destruct (body request) as [d | errors |] eqn:Hb;
        [exfalso; apply Hnot; exact I | |]; cbn [bind_body respond handle_exception fst].
      * unfold request_validation_exception_handler, render.
        destruct (json_encodable _).
        -- do 6 right. left. split; [reflexivity|]. exists errors. split; reflexivity.
        -- do 7 right. left. split; reflexivity.
      * do 4 right. left. split; [reflexivity|]. split; reflexivity.
    + do 9 right. split; [left; reflexivity|]. eexists. reflexivity.
    + do 9 right. split; [right; reflexivity|]. eexists. reflexivity.
Qed.

(** X5.  The status of every answer, route by route: [GET /] gives 307;
    [GET /portfolio] gives 200, 403 or 429; [POST /portfolio] gives 200,
    400, 422, 429 or 500, and so never the 403 of the bot check; the two
    version routes give 200.  Only [POST /portfolio] is ever answered 500,
    400 or 422. *)
Theorem served_status_by_route (now : Z) (st : Limiter.store) (request : Request) :
  match endpoint request with
  | GetRoot => status_code (serve now st request).1 = 307
  | GetPortfolio =>
      status_code (serve now st request).1 = 200
      \/ status_code (serve now st request).1 = 403
      \/ status_code (serve now st request).1 = 429
  | PostPortfolio =>
      status_code (serve now st request).1 = 200
      \/ status_code (serve now st request).1 = 400
      \/ status_code (serve now st request).1 = 422
      \/ status_code (serve now st request).1 = 429
      \/ status_code (serve now st request).1 = 500
  | GetV1Portfolio | GetV2Portfolio => status_code (serve now st request).1 = 200
  end.
Proof.
  destruct (serve_answers now st request)
    as [[Hreach E] | [[He E] | [[He (response & Hr & E)] | [[He (_ & E)]
       | [[He (_ & E)] | [[He (j & E)] | [[He (errors & _ & E)] | [[He E]
       | [[He E] | [He (j & E)]]]]]]]]]]; rewrite E.
  - unfold reaches_limiter in Hreach.
    destruct (endpoint request); try contradiction; cbn; auto.
  - rewrite He. cbn. auto.
  - rewrite He. destruct (get_success_fields _ _ response Hr) as (Hs & _). auto.
  - rewrite He. cbn. auto.
  - rewrite He. cbn. auto.
  - rewrite He. cbn. auto.
  - rewrite He. cbn. auto.
  - rewrite He. cbn. auto 6.
  - rewrite He. reflexivity.
  - destruct He as [He | He]; rewrite He; reflexivity.
Qed.

(** ** The limit of [POST /portfolio] *)

Lemma post_counts (address : string) (now : Z) (request : Request) :
  valid_post_from address (now, request) ->
  exists answer,
    status_code answer <> 429
    /\ forall st,
         serve now st request
         = (if (Limiter.hit (Limiter.per_minute 10) ("submit_details", address) now st).1
            then answer else rate_limit_exceeded_handler,
            (Limiter.hit (Limiter.per_minute 10) ("submit_details", address) now st).2).
Proof.
  unfold valid_post_from, request_to. cbn [snd]. intros [[He Hc] Hvalid].
  assert (Hreach : reaches_limiter request).
  { unfold reaches_limiter. rewrite He. exact Hvalid. }
  destruct (serve_limited request Hreach)
    as (scope & amount & answer & L & Hanswer & _ & _ & Hserve).
  rewrite He in L. injection L as <- <-.
  exists answer. split; [exact Hanswer|].
  intros st. rewrite (Hserve now st), Hc. reflexivity.
Qed.

Lemma post_other (address : string) (now : Z) (st : Limiter.store) (request : Request) :
  ~ valid_post_from address (now, request) ->
  (serve now st request).2 !! ("submit_details", address)
  = st !! ("submit_details", address).
Proof.
  intros Hnot.
  destruct (decide (request_to PostPortfolio address (now, request))) as [Hto | Hnto].
  - assert (Hunl : ~ reaches_limiter request).
    { unfold reaches_limiter. pose proof Hto as [He _]. cbn [snd] in He. rewrite He.
      intros Hvalid. apply Hnot. split; [exact Hto | exact Hvalid]. }
    destruct (serve_unlimited request Hunl) as (answer & _ & Hserve).
    rewrite (Hserve now st). reflexivity.
  - apply (serve_keeps_other PostPortfolio "submit_details" 10 address now st request
             eq_refl Hnto).
Qed.

(** X7.  [POST /portfolio] lets ten requests of a client through per
    window.  Take a client whose counter for this route is not yet in the
    store, and any sequence of requests in the order of their arrival.  A
    [POST /portfolio] of the client whose body passed validation is answered
    429, with the body of the limiter's handler, exactly when more than ten
    such requests, this one included, have arrived since the start of the
    one-minute window in which it falls.  Requests whose body did not pass
    validation, and the client's [GET /portfolio] requests, do not count.
    When the counted requests all arrive within one minute, a request is
    refused exactly when it is beyond the tenth. *)
Theorem post_rate_limit_per_minute
    (address : string) (st : Limiter.store) (reqs : list (Z * Request)) :
  st !! ("submit_details", address) = None ->
  chronological reqs ->
  forall (i : nat) (arrival : Z * Request),
    reqs !! i = Some arrival ->
    valid_post_from address arrival ->
    exists response,
      (run st reqs).1 !! i = Some response
      /\ (status_code response = 429
          <-> (10 < in_window (valid_post_from address) (take i reqs) arrival)%nat)
      /\ (status_code response = 429 ->
          response
          = JSONResponse 429
              (JObject [("message",
                         JString "Rate limit exceeded. Please try again later.")]))
      /\ (forall t0,
            Forall (fun x => valid_post_from address x -> t0 <= x.1 < t0 + 60) reqs ->
            status_code response = 429
            <-> (10 < length (filter (valid_post_from address) (take (S i) reqs)))%nat).
Proof.
  intros Hfresh Hchron i arrival Hi Hfrom.
  assert (Htracked : tracked (valid_post_from address) ("submit_details", address) [] st).
  { exact Hfresh. }
  destruct (run_tracked (valid_post_from address) ("submit_details", address) 10
              (post_counts address) (post_other address)
              reqs [] st Htracked Hchron i arrival Hi Hfrom)
    as (response & Hresp & H429 & Hbody).
  exists response. split; [exact Hresp|]. split; [exact H429|]. split; [exact Hbody|].
  intros t0 Hwithin.
  assert (Hcounted : counted_for ("submit_details", address) st t0 0).
  { unfold counted_for. rewrite Hfresh. reflexivity. }
  destruct (run_counted (valid_post_from address) ("submit_details", address) 10
              (post_counts address) (post_other address)
              t0 reqs st 0%nat Hcounted Hwithin i arrival Hi Hfrom)
    as (response' & Hresp' & H429' & _).
  rewrite Hresp in Hresp'. injection Hresp' as <-. exact H429'.
Qed.

(** In [posts_in_two_windows], served from the empty store, the three posts
    that do not validate are not counted: the eleventh valid post, at second
    55, is answered 429, the tenth is not, and the post at second 65, a
    minute after the first valid one, is let through again. *)
Lemma post_rate_limit_per_minute_witness :
  (exists response,
     (run ∅ posts_in_two_windows).1 !! 13%nat = Some response
     /\ status_code response = 429)
  /\ (exists response,
        (run ∅ posts_in_two_windows).1 !! 12%nat = Some response
        /\ status_code response <> 429)
  /\ (exists response,
        (run ∅ posts_in_two_windows).1 !! 14%nat = Some response
        /\ status_code response <> 429).
Proof.
  assert (Hfresh : (∅ : Limiter.store) !! ("submit_details", "10.0.0.1") = None)
    by apply lookup_empty.
  assert (Hchron : chronological posts_in_two_windows) by chronological_list.
  split; [|split].
  - destruct (post_rate_limit_per_minute "10.0.0.1" ∅ posts_in_two_windows
                Hfresh Hchron 13%nat (55, valid_post "10.0.0.1") eq_refl)
      as (response & Hresp & H429 & _).
    + split; [split; reflexivity | exact I].
    + exists response. split; [exact Hresp|]. apply H429. vm_compute. lia.
  - destruct (post_rate_limit_per_minute "10.0.0.1" ∅ posts_in_two_windows
                Hfresh Hchron 12%nat (50, valid_post "10.0.0.1") eq_refl)
      as (response & Hresp & H429 & _).
    + split; [split; reflexivity | exact I].
    + exists response. split; [exact Hresp|].
      intros H. apply H429 in H. vm_compute in H. lia.
  - destruct (post_rate_limit_per_minute "10.0.0.1" ∅ posts_in_two_windows
                Hfresh Hchron 14%nat (65, valid_post "10.0.0.1") eq_refl)
      as (response & Hresp & H429 & _).
    + split; [split; reflexivity | exact I].
    + exists response. split; [exact Hresp|].
      intros H. apply H429 in H. vm_compute in H. lia.
Defined.

(** ** Clients and routes do not interfere *)

Section Isolation.

Variables (e : Endpoint) (address : string).

(** A request of the client to the route is answered the same from two
    stores that hold the same counter for it, and leaves them so. *)
Lemma serve_same_counter (now : Z) (st1 st2 : Limiter.store) (request : Request) :
  request_to e address (now, request) ->
  same_counter e address st1 st2 ->
  (serve now st1 request).1 = (serve now st2 request).1
  /\ same_counter e address (serve now st1 request).2 (serve now st2 request).2.
Proof.
  unfold request_to. cbn [snd]. intros [He Hc] Hsame.
  destruct (decide (reaches_limiter request)) as [Hreach | Hnot].
  - destruct (serve_limited request Hreach)
      as (scope & amount & answer & L & _ & _ & _ & Hserve).
    rewrite (Hserve now st1), (Hserve now st2), Hc. cbn [fst snd].
    unfold same_counter in *. rewrite <- He, L in *.
    destruct (hit_same_counter (Limiter.per_minute amount) (scope, address)
                now st1 st2 Hsame) as [Hlet Hkey].
    rewrite Hlet. split; [reflexivity | exact Hkey].
  - destruct (serve_unlimited request Hnot) as (answer & _ & Hserve).
    rewrite (Hserve now st1), (Hserve now st2). split; [reflexivity | exact Hsame].
Qed.

(** Any other request leaves the counter of the client on the route. *)
Lemma serve_other_same_counter (now : Z) (st1 st2 : Limiter.store) (request : Request) :
  ~ request_to e address (now, request) ->
  same_counter e address st1 st2 ->
  same_counter e address (serve now st1 request).2 st2.
Proof.
  unfold same_counter. intros Hother.
  destruct (limit_of e) as [[scope amount]|] eqn:L; [|trivial].
  intros Hsame.
  rewrite (serve_keeps_other e scope amount address now st1 request L Hother).
  exact Hsame.
Qed.

Lemma answers_to_run (reqs : list (Z * Request)) :
  forall st1 st2 : Limiter.store,
    same_counter e address st1 st2 ->
    answers_to e address reqs (run st1 reqs).1
    = (run st2 (filter (request_to e address) reqs)).1.
Proof.
  induction reqs as [|[now request] reqs IH]; intros st1 st2 Hsame; [reflexivity|].
  rewrite run_cons, filter_cons. cbn [answers_to].
  destruct (decide (request_to e address (now, request))) as [Hthis | Hother].
  - rewrite run_cons.
    destruct (serve_same_counter now st1 st2 request Hthis Hsame) as [Hresp Hsame'].
    rewrite Hresp, (IH _ _ Hsame'). reflexivity.
  - apply IH. apply serve_other_same_counter; assumption.
Qed.

Lemma same_counter_refl (st : Limiter.store) : same_counter e address st st.
Proof. unfold same_counter. destruct (limit_of e) as [[scope amount]|]; reflexivity. Qed.

End Isolation.

(** X8.  What a client is answered on a route depends on that client's own
    requests to that route and their times, and on nothing else served in
    between: the answers it gets in any sequence of requests are the answers
    it would get if its requests to the route were the only ones.  Requests
    of other clients, and the client's own requests to other routes, use up
    none of its limit. *)
Theorem answers_depend_on_own_requests
    (e : Endpoint) (address : string) (st : Limiter.store)
    (reqs : list (Z * Request)) :
  answers_to e address reqs (run st reqs).1
  = (run st (filter (request_to e address) reqs)).1.
Proof. apply answers_to_run, same_counter_refl. Qed.

(** ** The middleware *)

(** The client receives what the routed function returned, or the response
    of the handler of what it raised. *)
Lemma serve_route (now : Z) (st : Limiter.store) (request : Request) :
  serve now st request
  = (respond (route now st request).1, (route now st request).2).
Proof.
  unfold serve, route. destruct (endpoint request); try reflexivity.
  - destruct (limit _ _ _ now st request) as [r st']. reflexivity.
  - destruct (bind_body (body request)) as [d | e]; [|reflexivity].
    destruct (limit _ _ _ now st request) as [r st']. reflexivity.
Qed.

(** What the routed functions return and raise. *)
Lemma route_outcome (now : Z) (st : Limiter.store) (request : Request) :
  match (route now st request).1 with
  | Return response => status_code response <> 500
  | Raise (HTTPException status _) => status <> 500
  | Raise RateLimitExceeded => True
  | Raise (Exception _) => False
  | Raise (RequestValidationError _) => endpoint request = PostPortfolio
  | Raise (UnicodeEncodeError content) =>
      json_encodable content = false /\ endpoint request = PostPortfolio
  end.
Proof.
  unfold route, limit.
  destruct (endpoint request) eqn:He; cbn [fst]; try discriminate.
  - destruct (Limiter.hit _ _ now st) as [[] st']; cbn [fst]; [|exact I].
    destruct (submit_details_get_cases (query request) (user_agent request))
      as [[_ Hr] | [_ (response & Hr & Hs)]]; rewrite Hr.
    + discriminate.
    + rewrite Hs. discriminate.
  - destruct (body request) as [d | errors |]; cbn [bind_body fst];
      [| reflexivity | discriminate].
    destruct (Limiter.hit _ _ now st) as [[] st']; cbn [fst]; [|exact I].
    destruct (submit_details d) as [j | e] eqn:E; cbn [send_json].
    + unfold render. destruct (json_encodable j) eqn:Hj.
      * discriminate.
      * split; [exact Hj | reflexivity].
    + rewrite (required_fields_guard_raise d e E). discriminate.
Qed.

(** X9.  The middleware changes neither the response nor the limiter's
    store.  Around every request that is not answered 500 it prints exactly
    one line, made of the method and the path of the route and of nothing
    else the request carries: not the client, the query, the headers or the
    body.  A request is answered 500 only on [POST /portfolio], when a
    response could not be encoded; then two more lines are printed, by
    [log_requests] and by [global_exception_handler], each with the text of
    that exception. *)
Theorem app_prints_method_and_path
    (now : Z) (st : Limiter.store) (request : Request) :
  (app now st request).1.2 = (serve now st request).1
  /\ (app now st request).2 = (serve now st request).2
  /\ (status_code (serve now st request).1 <> 500 ->
      (app now st request).1.1
      = [Plain ("HTTP " +:+ method_of (endpoint request) +:+ " Request to "
                +:+ path_of (endpoint request) +:+ " (sanitized)")])
  /\ (status_code (serve now st request).1 = 500 ->
      endpoint request = PostPortfolio
      /\ exists content,
           json_encodable content = false
           /\ (app now st request).1.1
              = [Plain ("HTTP " +:+ method_of (endpoint request) +:+ " Request to "
                        +:+ path_of (endpoint request) +:+ " (sanitized)");
                 WithException "Error during request processing: "
                   (UnicodeEncodeError content);
                 WithException "Unhandled exception: " (UnicodeEncodeError content)]).
Proof.
  rewrite serve_route. unfold app.
  pose proof (route_outcome now st request) as Hout.
  destruct (route now st request) as [[response | e] st']; cbn [fst snd] in *.
  - split; [reflexivity|]. split; [reflexivity|].
    split; [intros _; reflexivity | intros H500; contradiction].
  - destruct e as [status detail | | msg | errors | content];
      cbn [exception_middleware log_requests server_error_middleware respond
           handle_exception fst snd app].
    + split; [reflexivity|]. split; [reflexivity|].
      split; [intros _; reflexivity | intros H500; cbn in H500; contradiction].
    + split; [reflexivity|]. split; [reflexivity|].
      split; [intros _; reflexivity | intros H500; discriminate H500].
    + contradiction.
    + unfold request_validation_exception_handler, render.
      destruct (json_encodable _) eqn:Hj; cbn [fst snd app].
      * split; [reflexivity|]. split; [reflexivity|].
        split; [intros _; reflexivity | intros H500; discriminate H500].
      * split; [reflexivity|]. split; [reflexivity|].
        split; [intros Hnot; exfalso; apply Hnot; reflexivity|].
        intros _. split; [exact Hout|]. eexists. split; [exact Hj | reflexivity].
    + destruct Hout as [Hj He].
      split; [reflexivity|]. split; [reflexivity|].
      split; [intros Hnot; exfalso; apply Hnot; reflexivity|].
      intros _. split; [exact He|]. exists content. split; [exact Hj | reflexivity].
Qed.

(** ** Error bodies and the robots header *)

(** X10.  The error answers, by status.  A 403 comes from [GET /portfolio]
    only and carries its text under the key [detail].  A 400 and a 422 come
    from [POST /portfolio] only: the 400 carries under [detail] the text of
    the required fields when the body passed validation, and the framework's
    text when the body could not be read; the 422 carries the validation
    errors under [detail].  A 429
    comes from the two routes under a limit and carries the limiter's text
    under [message]; a 500 comes from [POST /portfolio] only and carries the
    fixed text of the handler under [message]. *)
Theorem error_bodies_by_status (now : Z) (st : Limiter.store) (request : Request) :
  (status_code (serve now st request).1 = 403 ->
   endpoint request = GetPortfolio
   /\ content (serve now st request).1
      = Some (JObject [("detail", JString "Bots are not allowed")]))
  /\ (status_code (serve now st request).1 = 400 ->
      endpoint request = PostPortfolio
      /\ ((exists d, body request = Valid d)
          /\ content (serve now st request).1
             = Some (JObject [("detail",
                               JString "Name, school, and major are required fields.")])
          \/ body request = Unreadable
             /\ content (serve now st request).1
                = Some (JObject [("detail",
                                  JString "There was an error parsing the body")])))
  /\ (status_code (serve now st request).1 = 429 ->
      (endpoint request = GetPortfolio \/ endpoint request = PostPortfolio)
      /\ content (serve now st request).1
         = Some (JObject [("message",
                           JString "Rate limit exceeded. Please try again later.")]))
  /\ (status_code (serve now st request).1 = 422 ->
      endpoint request = PostPortfolio
      /\ exists errors,
           body request = Invalid errors
           /\ content (serve now st request).1
              = Some (JObject [("detail", JArray errors)]))
  /\ (status_code (serve now st request).1 = 500 ->
      endpoint request = PostPortfolio
      /\ content (serve now st request).1
         = Some (JObject
                   [("message",
                     JString "An internal server error occurred. Please try again later.")])).
Proof.
  destruct (serve_answers now st request)
    as [[Hreach E] | [[He E] | [[He (response & Hr & E)] | [[He (Hv & E)]
       | [[He (Hu & E)] | [[He (j & E)] | [[He (errors & Hb & E)] | [[He E]
       | [[He E] | [He (j & E)]]]]]]]]]]; rewrite E.
  - repeat match goal with |- _ /\ _ => split end; intros H; try discriminate H.
    split; [|reflexivity]. unfold reaches_limiter in Hreach.
    destruct (endpoint request); try contradiction; auto.
  - repeat match goal with |- _ /\ _ => split end; intros H; try discriminate H.
    split; [exact He | reflexivity].
  - destruct (get_success_fields _ _ response Hr) as (Hs & _).
    repeat match goal with |- _ /\ _ => split end; intros H;
      rewrite Hs in H; discriminate H.
  - repeat match goal with |- _ /\ _ => split end; intros H; try discriminate H.
    split; [exact He | left; split; [exact Hv | reflexivity]].
  - repeat match goal with |- _ /\ _ => split end; intros H; try discriminate H.
    split; [exact He | right; split; [exact Hu | reflexivity]].
  - repeat match goal with |- _ /\ _ => split end; intros H; discriminate H.
  - repeat match goal with |- _ /\ _ => split end; intros H; try discriminate H.
    split; [exact He|]. exists errors. split; [exact Hb | reflexivity].
  - repeat match goal with |- _ /\ _ => split end; intros H; try discriminate H.
    split; [exact He | reflexivity].
  - repeat match goal with |- _ /\ _ => split end; intros H; discriminate H.
  - repeat match goal with |- _ /\ _ => split end; intros H; discriminate H.
Qed.

(** X11.  The header [X-Robots-Tag] is on the 200 answers of
    [GET /portfolio] and on no other answer: not on the redirect, not on the
    answers of the other routes, and not on a 403 or a 429. *)
Theorem robots_tag_only_on_get_success
    (now : Z) (st : Limiter.store) (request : Request) :
  get_header "X-Robots-Tag" (serve now st request).1 <> None
  <-> endpoint request = GetPortfolio
      /\ status_code (serve now st request).1 = 200.
Proof.
  destruct (serve_answers now st request)
    as [[Hreach E] | [[He E] | [[He (response & Hr & E)] | [[He (Hv & E)]
       | [[He (Hu & E)] | [[He (j & E)] | [[He (errors & Hb & E)] | [[He E]
       | [[He E] | [He (j & E)]]]]]]]]]]; rewrite E.
  - split; [intros H; exfalso; apply H; reflexivity | intros [_ H]; discriminate H].
  - split; [intros H; exfalso; apply H; reflexivity | intros [_ H]; discriminate H].
  - destruct (get_success_fields _ _ response Hr) as (Hs & Hh & _).
    rewrite Hh, Hs. split; [intros _; split; [exact He | reflexivity] | discriminate].
  - split; [intros H; exfalso; apply H; reflexivity|].
    intros [He' _]. rewrite He in He'. discriminate He'.
  - split; [intros H; exfalso; apply H; reflexivity|].
    intros [He' _]. rewrite He in He'. discriminate He'.
  - split; [intros H; exfalso; apply H; reflexivity|].
    intros [He' _]. rewrite He in He'. discriminate He'.
  - split; [intros H; exfalso; apply H; reflexivity|].
    intros [He' _]. rewrite He in He'. discriminate He'.
  - split; [intros H; exfalso; apply H; reflexivity|].
    intros [He' _]. rewrite He in He'. discriminate He'.
  - split; [intros H; exfalso; apply H; reflexivity|].
    intros [He' _]. rewrite He in He'. discriminate He'.
  - split; [intros H; exfalso; apply H; reflexivity|].
    intros [He' _]. destruct He as [He | He]; rewrite He in He'; discriminate He'.
Qed.
